(** * Smart customer-support bot: the routing policy of [main.py]

    A shallow embedding of the guardrail filter, the order lookup tool and
    [BotAgent.handle], followed by the properties of the routing policy.

    Conventions of the embedding.
    - A Python [str] is a sequence of code points.  The model keeps the code
      points 0..255 and writes each one as an [ascii]; [str.lower],
      [str.strip] and the regular-expression classes [\d], [\w] and [\b]
      are given on that range as CPython defines them.
    - [log_event] appends one line to the log file.  The file is the state
      of a small state-and-exception monad [M]; the time stamp of a line
      comes from the clock and is left out of the entry.
    - Dictionaries of a fixed shape (the verdict of the guardrail, an order
      record, the reply of [handle]) are records; a key that a reply does
      not carry reads as [false] or [None], which is what [dict.get]
      followed by a truth test gives. *)

From Stdlib Require Import String Ascii List Bool NArith Arith Lia.
Import ListNotations.
Local Open Scope list_scope.
Local Open Scope string_scope.

(** ** Characters *)

Definition code (c : ascii) : N := N_of_ascii c.

Definition in_range (lo hi : N) (c : ascii) : bool :=
  ((lo <=? code c) && (code c <=? hi))%N.

(** The class [[A-Z]]. *)
Definition is_upper_AZ (c : ascii) : bool := in_range 65 90 c.

(** The class [\d] of a [str] pattern: the decimal digits. *)
Definition is_digit (c : ascii) : bool := in_range 48 57 c.

(** [str.isalnum] on one character: letters, and characters with a decimal,
    digit or numeric value. *)
Definition is_alnum (c : ascii) : bool :=
  in_range 48 57 c || in_range 65 90 c || in_range 97 122 c
  || (code c =? 170)%N || (code c =? 178)%N || (code c =? 179)%N
  || (code c =? 181)%N || (code c =? 185)%N || (code c =? 186)%N
  || in_range 188 190 c
  || in_range 192 214 c || in_range 216 246 c || in_range 248 255 c.

(** The class [\w] of a [str] pattern. *)
Definition is_word (c : ascii) : bool := is_alnum c || (code c =? 95)%N.

(** [str.isspace] on one character. *)
Definition is_space (c : ascii) : bool :=
  in_range 9 13 c || in_range 28 32 c || (code c =? 133)%N || (code c =? 160)%N.

Definition lower_char (c : ascii) : ascii :=
  if in_range 65 90 c || in_range 192 214 c || in_range 216 222 c
  then ascii_of_N (code c + 32)
  else c.

(** ** Strings *)

(** [s.lower()] *)
Fixpoint lower (s : string) : string :=
  match s with
  | EmptyString => EmptyString
  | String c s' => String (lower_char c) (lower s')
  end.

Fixpoint lstrip (s : string) : string :=
  match s with
  | EmptyString => EmptyString
  | String c s' => if is_space c then lstrip s' else s
  end.

Fixpoint rstrip (s : string) : string :=
  match s with
  | EmptyString => EmptyString
  | String c s' =>
      match rstrip s' with
      | EmptyString => if is_space c then EmptyString else String c EmptyString
      | r => String c r
      end
  end.

(** [s.strip()] *)
Definition strip (s : string) : string := rstrip (lstrip s).

(** [sub in s] *)
Fixpoint contains (sub s : string) : bool :=
  String.prefix sub s
  || match s with
     | EmptyString => false
     | String _ s' => contains sub s'
     end.

(** [sep.join(items)] *)
Definition join (sep : string) (items : list string) : string :=
  String.concat sep items.

(** [bool(s)] for a [str]. *)
Definition nonempty (s : string) : bool :=
  match s with EmptyString => false | _ => true end.

(** ** The pattern [\b([A-Z]\d{2,})\b]

    [re.search] tries the start positions from left to right; at a position
    the pattern asks for a word boundary, one character of [[A-Z]], a greedy
    run of at least two [\d] that gives characters back on failure, and a
    word boundary.  [prev] is the character before the position, [None] at
    the start of the text. *)

Definition opt_word (c : option ascii) : bool :=
  match c with Some a => is_word a | None => false end.

(** [\b] between two neighbouring positions. *)
Definition word_boundary (prev next : option ascii) : bool :=
  xorb (opt_word prev) (opt_word next).

Definition head (s : string) : option ascii :=
  match s with EmptyString => None | String c _ => Some c end.

(** [\d{2,}\b] after [n] digits have been taken, the last of them [prev]:
    take one more digit when there is one, and fall back to stopping here
    when the rest cannot be matched after it. *)
Fixpoint digits_then_boundary (n : nat) (prev : ascii) (s : string)
  : option string :=
  let stop :=
    if (2 <=? n)%nat && word_boundary (Some prev) (head s)
    then Some EmptyString else None in
  match s with
  | String c s' =>
      if is_digit c then
        match digits_then_boundary (S n) c s' with
        | Some m => Some (String c m)
        | None => stop
        end
      else stop
  | EmptyString => stop
  end.

(** The pattern matched at one position; the result is group 1. *)
Definition match_here (prev : option ascii) (s : string) : option string :=
  match s with
  | String c s' =>
      if word_boundary prev (Some c) && is_upper_AZ c then
        match digits_then_boundary 0 c s' with
        | Some m => Some (String c m)
        | None => None
        end
      else None
  | EmptyString => None
  end.

Fixpoint search_from (prev : option ascii) (s : string) : option string :=
  match match_here prev s with
  | Some g => Some g
  | None =>
      match s with
      | String c s' => search_from (Some c) s'
      | EmptyString => None
      end
  end.

(** [re.search(r"\b([A-Z]\d{2,})\b", text)], as [m.group(1)] of the match. *)
Definition search_order_id (text : string) : option string :=
  search_from None text.

(** ** Values, dictionaries and the log *)

(** The values that appear in a log payload or in the settings' metadata. *)
#[warnings="-register-all"]
Inductive pyval : Type :=
| PNone
| PBool (b : bool)
| PStr (s : string)
| PDict (d : list (string * pyval)).

(** A [dict] with [str] keys, in insertion order. *)
Definition dict (V : Type) : Type := list (string * V).

(** [d.get(k)] *)
Fixpoint dict_get {V : Type} (k : string) (d : dict V) : option V :=
  match d with
  | [] => None
  | (k', v) :: d' => if String.eqb k k' then Some v else dict_get k d'
  end.

(** The keys of [d], as [for k in d] visits them. *)
Definition dict_keys {V : Type} (d : dict V) : list string := map fst d.

(** [bool(v)] *)
Definition truthy (v : pyval) : bool :=
  match v with
  | PNone => false
  | PBool b => b
  | PStr s => nonempty s
  | PDict d => match d with [] => false | _ => true end
  end.

(** [v == s] for a [str] [s]. *)
Definition eq_str (v : pyval) (s : string) : bool :=
  match v with PStr s' => String.eqb s' s | _ => false end.

Record LogEntry : Type := mkLogEntry {
  event_type : string;
  payload : dict pyval
}.

Inductive exn : Type :=
| AttributeError (what : string)
| KeyError (key : string).

(** Computations that append to the log file and may raise. *)
Definition M (A : Type) : Type := list LogEntry -> (exn + A) * list LogEntry.

Definition ret {A : Type} (a : A) : M A := fun log => (inr a, log).

Definition raise {A : Type} (e : exn) : M A := fun log => (inl e, log).

Definition bind {A B : Type} (m : M A) (k : A -> M B) : M B :=
  fun log =>
    match m log with
    | (inr a, log') => k a log'
    | (inl e, log') => (inl e, log')
    end.

Notation "x <- m ;; k" := (bind m (fun x => k))
  (at level 61, m at next level, right associativity).
Notation "m ;; k" := (bind m (fun _ => k))
  (at level 61, right associativity).

Definition log_event (event_type : string) (payload : dict pyval) : M unit :=
  fun log => (inr tt, (log ++ [mkLogEntry event_type payload])%list).

(** ** Guardrails *)

Definition OFFENSIVE_WORDS : list string :=
  ["idiot"; "stupid"; "hate"; "kill"; "damn"; "shut up"].

Definition NEGATIVE_WORDS : list string :=
  ["angry"; "upset"; "unhappy"; "not happy"; "complain"; "bad"; "terrible"].

Record Verdict : Type := mkVerdict {
  offensive : bool;
  negative : bool
}.

Definition detect_offensive_or_negative (text : string) : Verdict :=
  let text_lower := lower text in
  let found_offensive := existsb (fun w => contains w text_lower) OFFENSIVE_WORDS in
  let found_negative := existsb (fun w => contains w text_lower) NEGATIVE_WORDS in
  mkVerdict found_offensive found_negative.

(** The reply of a handler. *)
Record Outcome : Type := mkOutcome {
  handled : bool;
  handoff : bool;
  guardrail_flag : bool;
  tool_error : bool;
  action : option string;
  reason : option string;
  message : string
}.

Definition reply (message : string) : Outcome :=
  mkOutcome true false false false None None message.

Definition reply_tool_error (message : string) : Outcome :=
  mkOutcome true false false true None None message.

Definition reply_handoff (reason message : string) : Outcome :=
  mkOutcome false true false false None (Some reason) message.

Definition reply_guardrail : Outcome :=
  mkOutcome true false true false (Some "block_or_rephrase") None
    "I'm here to help, but I can't respond to offensive language. Could you rephrase your question?".

(** The decorator: [func] is a method, its first argument [self] and its
    second the user's input. *)
Definition guardrail {Self : Type} (func : Self -> string -> M Outcome)
  : Self -> string -> M Outcome :=
  fun self user_input =>
    let detected := detect_offensive_or_negative user_input in
    if offensive detected then
      log_event "guardrail_triggered"
        [("reason", PStr "offensive_language"); ("input", PStr user_input)] ;;
      ret reply_guardrail
    else func self user_input.

(** ** The tool registry *)

Record ErrorPayload : Type := mkErrorPayload {
  err_error : bool;
  err_message : string
}.

Definition error_to_pyval (e : ErrorPayload) : pyval :=
  PDict [("error", PBool (err_error e)); ("message", PStr (err_message e))].

Record OrderRecord : Type := mkOrder {
  status : string;
  eta : string;
  items : list string;
  customer_id : string
}.

(** What [get_order_status] returns: the error dictionary, or the order's
    fields together with its id. *)
Inductive ToolResult : Type :=
| ResError (e : ErrorPayload)
| ResOrder (order_id : string) (o : OrderRecord).

Module FunctionTool.
Record t : Type := mk {
  func : string -> string -> M ToolResult;
  name : string;
  is_enabled : string -> bool;
  error_function : option (string -> ErrorPayload)
}.

Definition init (func : string -> string -> M ToolResult) (func_name : string)
    (name : option string) (is_enabled : option (string -> bool))
    (error_function : option (string -> ErrorPayload)) : t :=
  mk func
     (match name with Some n => if nonempty n then n else func_name | None => func_name end)
     (match is_enabled with Some p => p | None => fun _ => true end)
     error_function.

Definition call (self : t) (user_input order_id : string) : M ToolResult :=
  func self user_input order_id.
End FunctionTool.

(** The function a [function_tool] decorator returns: calling it calls the
    tool, and its attribute [_tool] is the tool. *)
Record Wrapped : Type := mkWrapped {
  wrapper : string -> string -> M ToolResult;
  _tool : FunctionTool.t
}.

Definition function_tool (name : option string) (is_enabled : option (string -> bool))
    (error_function : option (string -> ErrorPayload))
    (func : string -> string -> M ToolResult) (func_name : string) : Wrapped :=
  let tool :=
    FunctionTool.init func func_name
      (Some (match name with Some n => if nonempty n then n else func_name | None => func_name end))
      is_enabled error_function in
  mkWrapped (fun user_input order_id => FunctionTool.call tool user_input order_id) tool.

Definition SIMULATED_ORDERS : dict OrderRecord :=
  [ ("A100", mkOrder "shipped" "2025-09-04" ["Blue T-shirt"; "Cap"] "12345");
    ("B201", mkOrder "processing" "2025-09-10" ["Coffee Mug"] "67890");
    ("C303", mkOrder "delivered" "2025-08-20" ["Notebook"] "12345") ].

Definition order_tool_enabled_predicate (query : string) : bool :=
  let q := lower query in
  contains "order" q
  || match search_order_id query with Some _ => true | None => false end.

Definition order_error_function (order_id : string) : ErrorPayload :=
  mkErrorPayload true
    ("Order ID '" ++ order_id ++ "' not found. Please check the ID or contact support.").

Definition get_order_status_func (user_input order_id : string) : M ToolResult :=
  log_event "tool_invoked"
    [("tool", PStr "get_order_status"); ("order_id", PStr order_id);
     ("user_input", PStr user_input)] ;;
  match dict_get order_id SIMULATED_ORDERS with
  | None => ret (ResError (mkErrorPayload true ("Order " ++ order_id ++ " not found.")))
  | Some order => ret (ResOrder order_id order)
  end.

Definition get_order_status : Wrapped :=
  function_tool (Some "get_order_status") (Some order_tool_enabled_predicate)
    (Some order_error_function) get_order_status_func "get_order_status".

(** ** Agents *)

Module ModelSettings.
Record t : Type := mk {
  tool_choice : string;
  metadata : dict pyval
}.

(** [ModelSettings(tool_choice, metadata)]; an absent argument is [None]. *)
Definition init (tool_choice : option string) (metadata : option (dict pyval)) : t :=
  mk (match tool_choice with Some c => c | None => "auto" end)
     (match metadata with Some md => md | None => [] end).
End ModelSettings.

(** The table [self.faqs] that [BotAgent.__init__] builds. *)
Definition FAQS : dict string :=
  [ ("what is your return policy",
     "You can return items within 14 days of delivery for a full refund (item must be unused).");
    ("how to contact support",
     "You can contact support at support@example.com or call +1-800-555-1234.");
    ("do you ship internationally",
     "Yes, we ship to many countries. Shipping costs vary by destination.") ].

Module BotAgent.
Record t : Type := mk {
  name : string;
  model_settings : ModelSettings.t;
  faqs : dict string;
  tools : dict Wrapped
}.

Definition init (name : option string) (model_settings : option ModelSettings.t) : t :=
  mk (match name with Some n => n | None => "BotAgent" end)
     (match model_settings with
      | Some ms => ms
      | None => ModelSettings.init None None
      end)
     FAQS
     [ ("get_order_status", get_order_status) ].

(** The loop [for k in self.faqs]: [Some] reply when an iteration returns,
    [None] when the loop runs to its end. *)
Fixpoint faq_loop (self : t) (q user_input : string) (keys : list string)
  : M (option Outcome) :=
  match keys with
  | [] => ret None
  | k :: keys' =>
      if contains k q then
        log_event "faq_answered" [("faq", PStr k); ("user_input", PStr user_input)] ;;
        match dict_get k (faqs self) with
        | Some answer => ret (Some (reply answer))
        | None => raise (KeyError k)
        end
      else faq_loop self q user_input keys'
  end.

(** [tool_choice in ("auto", "required")] *)
Definition auto_or_required (tool_choice : string) : bool :=
  String.eqb tool_choice "auto" || String.eqb tool_choice "required".

(** The second test for the suffix: the metadata's [customer_id] is truthy
    and equal to the record's. *)
Definition verified (md : dict pyval) (record_customer_id : string) : bool :=
  match dict_get "customer_id" md with
  | Some v => truthy v && eq_str v record_customer_id
  | None => false
  end.

(** The body of [handle], before the decorator. *)
Definition handle_body (self : t) (user_input : string) : M Outcome :=
  let q := lower (strip user_input) in
  (* 1) FAQ *)
  r <- faq_loop self q user_input (dict_keys (faqs self)) ;;
  match r with
  | Some o => ret o
  | None =>
  (* 2) Order lookup *)
  match dict_get "get_order_status" (tools self) with
  | None => raise (AttributeError "_tool")
  | Some tool =>
  let tool_enabled := FunctionTool.is_enabled (_tool tool) user_input in
  let tool_choice := ModelSettings.tool_choice (model_settings self) in
  if String.eqb tool_choice "required" && negb tool_enabled then
    log_event "escalation_reason"
      [("reason", PStr "tool_required_but_disabled"); ("input", PStr user_input)] ;;
    ret (reply_handoff "tool_required_but_disabled"
           "I need to fetch order details but couldn't. Handing off to human agent.")
  else if tool_enabled && auto_or_required tool_choice then
    match search_order_id user_input with
    | Some order_id =>
        result <- wrapper tool user_input order_id ;;
        match result with
        | ResError e =>
            match FunctionTool.error_function (_tool tool) with
            | Some error_function =>
                let err := error_function order_id in
                log_event "tool_error"
                  [("tool", PStr "get_order_status"); ("order_id", PStr order_id);
                   ("error", error_to_pyval err)] ;;
                ret (reply_tool_error (err_message err))
            | None => ret (reply_tool_error (err_message e))
            end
        | ResOrder id o =>
            let msg :=
              "Order " ++ order_id ++ " is currently '" ++ status o ++ "'. ETA: "
              ++ eta o ++ ". Items: " ++ join ", " (items o) ++ "." in
            let msg :=
              if verified (ModelSettings.metadata (model_settings self)) (customer_id o)
              then msg ++ " (Verified customer)" else msg in
            log_event "tool_success"
              [("tool", PStr "get_order_status"); ("order_id", PStr order_id)] ;;
            ret (reply msg)
        end
    | None =>
        let detected := detect_offensive_or_negative user_input in
        if negative detected then
          log_event "escalation"
            [("reason", PStr "negative_sentiment"); ("input", PStr user_input)] ;;
          ret (reply_handoff "negative_sentiment"
                 "I can see you're upset. I'll transfer you to a human agent for support.")
        else
          ret (reply
                 "Could you please provide your order ID (format like A100) so I can check the status?")
    end
  else
    log_event "escalation_reason"
      [("reason", PStr "unknown_or_complex"); ("input", PStr user_input)] ;;
    ret (reply_handoff "unknown_or_complex"
           "I'm not sure about that. I'll hand you over to a human agent.")
  end
  end.

Definition handle : t -> string -> M Outcome := guardrail handle_body.
End BotAgent.

(** [BotAgent(model_settings=settings).handle(user_input)] *)
Definition bot (settings : ModelSettings.t) : BotAgent.t :=
  BotAgent.init None (Some settings).

Definition default_settings : ModelSettings.t := ModelSettings.init None None.


(** ** The words of the specification *)

(** The input passes the guardrail: it holds no offensive word. *)
Definition passes_guardrail (user_input : string) : Prop :=
  offensive (detect_offensive_or_negative user_input) = false.

(** The input holds one of the words of [words], case-insensitively. *)
Definition has_word (words : list string) (user_input : string) : Prop :=
  exists w, In w words /\ contains w (lower user_input) = true.

(** The text the FAQ matcher looks at. *)
Definition faq_text (user_input : string) : string := lower (strip user_input).

Definition matches_faq (user_input k : string) : Prop :=
  In k (dict_keys FAQS) /\ contains k (faq_text user_input) = true.

Definition matches_no_faq (user_input : string) : Prop :=
  forall k, In k (dict_keys FAQS) -> contains k (faq_text user_input) = false.

Definition tool_eligible (user_input : string) : Prop :=
  order_tool_enabled_predicate user_input = true.

(** The log lines of the branches. *)
Definition entry_guardrail (user_input : string) : LogEntry :=
  mkLogEntry "guardrail_triggered"
    [("reason", PStr "offensive_language"); ("input", PStr user_input)].

Definition entry_faq (k user_input : string) : LogEntry :=
  mkLogEntry "faq_answered" [("faq", PStr k); ("user_input", PStr user_input)].

Definition entry_escalation_reason (reason user_input : string) : LogEntry :=
  mkLogEntry "escalation_reason" [("reason", PStr reason); ("input", PStr user_input)].

Definition entry_escalation (reason user_input : string) : LogEntry :=
  mkLogEntry "escalation" [("reason", PStr reason); ("input", PStr user_input)].

Definition entry_tool_invoked (user_input order_id : string) : LogEntry :=
  mkLogEntry "tool_invoked"
    [("tool", PStr "get_order_status"); ("order_id", PStr order_id);
     ("user_input", PStr user_input)].

Definition entry_tool_success (order_id : string) : LogEntry :=
  mkLogEntry "tool_success" [("tool", PStr "get_order_status"); ("order_id", PStr order_id)].

Definition entry_tool_error (order_id : string) : LogEntry :=
  mkLogEntry "tool_error"
    [("tool", PStr "get_order_status"); ("order_id", PStr order_id);
     ("error", error_to_pyval (order_error_function order_id))].

(** ** Occurrences of an order id in a text *)

Fixpoint all_digits (s : string) : bool :=
  match s with
  | EmptyString => true
  | String c s' => is_digit c && all_digits s'
  end.

(** One upper-case ASCII letter followed by two or more digits. *)
Definition order_id_token (g : string) : Prop :=
  exists c ds,
    g = String c ds /\ is_upper_AZ c = true /\ all_digits ds = true
    /\ 2 <= String.length ds.

(** The last character of [s], and [prev] when [s] is empty. *)
Fixpoint last_from (prev : option ascii) (s : string) : option ascii :=
  match s with
  | EmptyString => prev
  | String c s' => last_from (Some c) s'
  end.

(** The text holds a letter followed by two or more digits, anywhere. *)
Definition token_occurs (text : string) : Prop :=
  exists pre g post, text = pre ++ g ++ post /\ order_id_token g.

(** The text holds such a token as a word of its own: no letter, digit or
    underscore stands right before it or right after it. *)
Definition token_occurs_as_word (text : string) : Prop :=
  exists pre g post,
    text = pre ++ g ++ post /\ order_id_token g
    /\ opt_word (last_from None pre) = false
    /\ opt_word (head post) = false.

(** The status line of a found order, before the suffix. *)
Definition order_line (order_id : string) (o : OrderRecord) : string :=
  "Order " ++ order_id ++ " is currently '" ++ status o ++ "'. ETA: "
  ++ eta o ++ ". Items: " ++ join ", " (items o) ++ ".".

Definition PROMPT_FOR_ID : string :=
  "Could you please provide your order ID (format like A100) so I can check the status?".

(** ** The branches of [handle] as a relation

    [route st user_input o written]: on [user_input] and settings [st], the
    routing policy answers [o] and appends the lines [written].  One
    constructor per [return] of the wrapped handler, with the tests that
    lead to it. *)
Inductive route (st : ModelSettings.t) (user_input : string)
  : Outcome -> list LogEntry -> Prop :=
| route_guardrail :
    offensive (detect_offensive_or_negative user_input) = true ->
    route st user_input reply_guardrail [entry_guardrail user_input]
| route_faq k answer :
    passes_guardrail user_input ->
    find (fun k => contains k (faq_text user_input)) (dict_keys FAQS) = Some k ->
    dict_get k FAQS = Some answer ->
    route st user_input (reply answer) [entry_faq k user_input]
| route_required_disabled :
    passes_guardrail user_input ->
    matches_no_faq user_input ->
    ModelSettings.tool_choice st = "required" ->
    order_tool_enabled_predicate user_input = false ->
    route st user_input
      (reply_handoff "tool_required_but_disabled"
         "I need to fetch order details but couldn't. Handing off to human agent.")
      [entry_escalation_reason "tool_required_but_disabled" user_input]
| route_tool_error order_id :
    passes_guardrail user_input ->
    matches_no_faq user_input ->
    order_tool_enabled_predicate user_input = true ->
    BotAgent.auto_or_required (ModelSettings.tool_choice st) = true ->
    search_order_id user_input = Some order_id ->
    dict_get order_id SIMULATED_ORDERS = None ->
    route st user_input
      (reply_tool_error (err_message (order_error_function order_id)))
      [entry_tool_invoked user_input order_id; entry_tool_error order_id]
| route_tool_success order_id o :
    passes_guardrail user_input ->
    matches_no_faq user_input ->
    order_tool_enabled_predicate user_input = true ->
    BotAgent.auto_or_required (ModelSettings.tool_choice st) = true ->
    search_order_id user_input = Some order_id ->
    dict_get order_id SIMULATED_ORDERS = Some o ->
    route st user_input
      (reply (if BotAgent.verified (ModelSettings.metadata st) (customer_id o)
              then order_line order_id o ++ " (Verified customer)"
              else order_line order_id o))
      [entry_tool_invoked user_input order_id; entry_tool_success order_id]
| route_negative :
    passes_guardrail user_input ->
    matches_no_faq user_input ->
    order_tool_enabled_predicate user_input = true ->
    BotAgent.auto_or_required (ModelSettings.tool_choice st) = true ->
    search_order_id user_input = None ->
    negative (detect_offensive_or_negative user_input) = true ->
    route st user_input
      (reply_handoff "negative_sentiment"
         "I can see you're upset. I'll transfer you to a human agent for support.")
      [entry_escalation "negative_sentiment" user_input]
| route_prompt :
    passes_guardrail user_input ->
    matches_no_faq user_input ->
    order_tool_enabled_predicate user_input = true ->
    BotAgent.auto_or_required (ModelSettings.tool_choice st) = true ->
    search_order_id user_input = None ->
    negative (detect_offensive_or_negative user_input) = false ->
    route st user_input (reply PROMPT_FOR_ID) []
| route_fallback :
    passes_guardrail user_input ->
    matches_no_faq user_input ->
    String.eqb (ModelSettings.tool_choice st) "required"
      && negb (order_tool_enabled_predicate user_input) = false ->
    order_tool_enabled_predicate user_input
      && BotAgent.auto_or_required (ModelSettings.tool_choice st) = false ->
    route st user_input
      (reply_handoff "unknown_or_complex"
         "I'm not sure about that. I'll hand you over to a human agent.")
      [entry_escalation_reason "unknown_or_complex" user_input].

(** The metadata carries a non-empty [customer_id] equal to [cid]. *)
Definition metadata_customer_is (md : dict pyval) (cid : string) : Prop :=
  exists s, dict_get "customer_id" md = Some (PStr s) /\ s <> EmptyString /\ s = cid.

Definition A100_LINE : string :=
  "Order A100 is currently 'shipped'. ETA: 2025-09-04. Items: Blue T-shirt, Cap.".

Definition Z999_NOT_FOUND : string :=
  "Order ID 'Z999' not found. Please check the ID or contact support.".

Definition UNKNOWN_OR_COMPLEX : Outcome :=
  reply_handoff "unknown_or_complex"
    "I'm not sure about that. I'll hand you over to a human agent.".


(** ** The process environment and the [.env] loader

    [os.environ] is a mapping from names to values.  Whether the platform
    accepts a new name and value ([os.putenv] refuses some, an empty name
    for one) is left to [putenv_ok]; a refusal is raised as an exception.
    Names are compared as they are written, as on POSIX systems.
    The file is given as the lines that iterating over it yields, and as
    [None] when the path does not exist. *)

Inductive env_exn : Type :=
| PutenvError (name value : string)
| UnpackError.

(** [s.split(sep, 1)] for a separator of one character: the text before
    the first separator, and the text after it when there is one. *)
Fixpoint split_once (sep : ascii) (s : string) : string * option string :=
  match s with
  | EmptyString => (EmptyString, None)
  | String c s' =>
      if Ascii.eqb c sep then (EmptyString, Some s')
      else let (before, after) := split_once sep s' in (String c before, after)
  end.

Section Environ.

Variable putenv_ok : string -> string -> bool.

(** [os.environ.setdefault(key, default)] *)
Definition environ_setdefault (key default : string) (environ : dict string)
  : (env_exn + string) * dict string :=
  match dict_get key environ with
  | Some value => (inr value, environ)
  | None =>
      if putenv_ok key default
      then (inr default, (environ ++ [(key, default)])%list)
      else (inl (PutenvError key default), environ)
  end.

(** The loop [for line in f] of [load_dotenv_file]: the exception that
    ended it, if any, and the environment it leaves. *)
Fixpoint load_dotenv_lines (lines : list string) (environ : dict string)
  : option env_exn * dict string :=
  match lines with
  | [] => (None, environ)
  | line :: rest =>
      let line := strip line in
      if negb (nonempty line) || String.prefix "#" line then
        load_dotenv_lines rest environ
      else if contains "=" line then
        match split_once "=" line with
        | (k, Some v) =>
            match environ_setdefault (strip k) (strip v) environ with
            | (inr _, environ') => load_dotenv_lines rest environ'
            | (inl e, environ') => (Some e, environ')
            end
        | (_, None) => (Some UnpackError, environ)
        end
      else load_dotenv_lines rest environ
  end.

Definition load_dotenv_file (file : option (list string)) (environ : dict string)
  : option env_exn * dict string :=
  match file with
  | None => (None, environ)
  | Some lines => load_dotenv_lines lines environ
  end.

End Environ.

(** [os.getenv(key, default)] *)
Definition getenv (environ : dict string) (key default : string) : string :=
  match dict_get key environ with
  | Some value => value
  | None => default
  end.

(** [load_config] of [my_config/gemini_config.py]. *)
Definition load_config (environ : dict string) : dict string :=
  [ ("GEMINI_API_KEY", strip (getenv environ "GEMINI_API_KEY" EmptyString));
    ("MODE", lower (strip (getenv environ "MODE" "offline")));
    ("CUSTOMER_ID", strip (getenv environ "CUSTOMER_ID" EmptyString)) ].

(** ** The human agent and the command-line loop

    Two things of the source lie outside the modelled values and are kept
    as parameters: the dash of the human agent's greeting, a code point
    above 255, and Python's [repr] of a dictionary. *)

(** The line feed. *)
Definition NL : string := String (ascii_of_N 10) EmptyString.

(** What [print(text)] writes. *)
Definition printed (text : string) : string := text ++ NL.

Section CLI.

Variable EM_DASH : string.
Variable repr_dict : dict pyval -> string.

(** [str(v)], as an f-string or [print] formats a value. *)
Definition py_str (v : pyval) : string :=
  match v with
  | PNone => "None"
  | PBool true => "True"
  | PBool false => "False"
  | PStr s => s
  | PDict d => repr_dict d
  end.

(** [context.get(key, default)] *)
Definition context_get (context : dict pyval) (key : string) (default : pyval) : pyval :=
  match dict_get key context with
  | Some v => v
  | None => default
  end.

(** [HumanAgent.handle] *)
Definition human_handle (context : dict pyval) : M Outcome :=
  log_event "human_agent_received" [("context", PDict context)] ;;
  let user_input := context_get context "user_input" (PStr EmptyString) in
  let reason := context_get context "reason" (PStr "unspecified") in
  let reply_text :=
    "[Human Agent] Hello " ++ EM_DASH ++ " I've received your request about: '"
    ++ py_str user_input ++ "'. Reason: " ++ py_str reason
    ++ ". We'll assist you shortly." in
  ret (reply reply_text).

(** [x or None] for a [str] or absent [x]. *)
Definition or_none (x : option string) : pyval :=
  match x with
  | Some s => if nonempty s then PStr s else PNone
  | None => PNone
  end.

(** The settings that [run_cli] builds from [CONFIG]. *)
Definition cli_settings (CONFIG : dict string) : ModelSettings.t :=
  let meta := [("customer_id", or_none (dict_get "CUSTOMER_ID" CONFIG))] in
  ModelSettings.init (Some "auto") (Some meta).

(** [user.lower() in ("exit", "quit")] *)
Definition is_exit (user : string) : bool :=
  String.eqb (lower user) "exit" || String.eqb (lower user) "quit".

(** What a run leaves: the exception that ended it, if any, the log and
    the texts written to the standard output, in order. *)
Definition Run : Type := option exn * list LogEntry * list string.

(** The loop [while True] of [run_cli].  [stdin] holds the lines still to
    be read; reading past the last one raises [EOFError].  An interrupt
    from the keyboard, which can come at any time, is not modelled. *)
Fixpoint cli_loop (bot_agent : BotAgent.t) (settings : ModelSettings.t)
    (stdin : list string) (log : list LogEntry) (stdout : list string) : Run :=
  let stdout := (stdout ++ [NL ++ "You: "]%string)%list in
  match stdin with
  | [] => (None, log, (stdout ++ [printed (NL ++ "Goodbye.")])%list)
  | line :: stdin' =>
      let user := strip line in
      if negb (nonempty user) then cli_loop bot_agent settings stdin' log stdout
      else if is_exit user then (None, log, (stdout ++ [printed "Goodbye."])%list)
      else
        match BotAgent.handle bot_agent user log with
        | (inl e, log') => (Some e, log', stdout)
        | (inr response, log') =>
            if handled response then
              cli_loop bot_agent settings stdin' log'
                (stdout ++ [printed ("Bot: " ++ message response)])%list
            else if handoff response then
              let handoff_context :=
                [ ("user_input", PStr user);
                  ("reason", match reason response with Some r => PStr r | None => PNone end);
                  ("metadata", PDict (ModelSettings.metadata settings)) ] in
              match
                (log_event "handoff_initiated"
                   [ ("from", PStr (BotAgent.name bot_agent)); ("to", PStr "HumanAgent");
                     ("context", PDict handoff_context) ] ;;
                 human_handle handoff_context) log'
              with
              | (inl e, log'') => (Some e, log'', stdout)
              | (inr human_reply, log'') =>
                  cli_loop bot_agent settings stdin' log''
                    (stdout ++ [printed (message human_reply)])%list
              end
            else
              cli_loop bot_agent settings stdin' log'
                (stdout ++ [printed "Bot: Sorry, I couldn't help with that."])%list
        end
  end.

(** [run_cli], with the module's [CONFIG] and the lines of the standard
    input as arguments. *)
Definition run_cli (CONFIG : dict string) (stdin : list string) (log : list LogEntry) : Run :=
  let stdout :=
    [ printed "=== Smart Customer Support Bot (CLI demo) ===";
      printed
        ("Mode: "
         ++ py_str (match dict_get "MODE" CONFIG with Some m => PStr m | None => PNone end)) ] in
  let settings := cli_settings CONFIG in
  let bot_agent := BotAgent.init None (Some settings) in
  let stdout :=
    (stdout
     ++ [printed
           "Type 'exit' to quit. Examples: 'what is your return policy', 'check order A100', 'my order B201', etc."])%list in
  cli_loop bot_agent settings stdin log stdout.

End CLI.

(** The lines written for a turn that ends with the human agent. *)
Definition handoff_context_of (settings : ModelSettings.t) (user reason : string)
  : dict pyval :=
  [ ("user_input", PStr user); ("reason", PStr reason);
    ("metadata", PDict (ModelSettings.metadata settings)) ].

Definition entry_handoff_initiated (settings : ModelSettings.t) (user reason : string)
  : LogEntry :=
  mkLogEntry "handoff_initiated"
    [ ("from", PStr "BotAgent"); ("to", PStr "HumanAgent");
      ("context", PDict (handoff_context_of settings user reason)) ].

Definition entry_human_received (settings : ModelSettings.t) (user reason : string)
  : LogEntry :=
  mkLogEntry "human_agent_received"
    [ ("context", PDict (handoff_context_of settings user reason)) ].

(** ** Blank texts *)

Fixpoint all_space (s : string) : bool :=
  match s with
  | EmptyString => true
  | String c s' => is_space c && all_space s'
  end.

(** No whitespace at either end. *)
Definition trimmed (s : string) : Prop := lstrip s = s /\ rstrip s = s.

(** A line of a [.env] file that assigns [v] to [k], with blanks allowed
    around the name, around the value and at both ends of the line. *)
Definition assignment_line (pad1 k pad2 pad3 v pad4 : string) : string :=
  pad1 ++ k ++ pad2 ++ "=" ++ pad3 ++ v ++ pad4.

(** A line of a [.env] file that the loader passes over: a blank line, a
    comment (a line whose first non-blank character is "#"), or a line
    with no "=". *)
Definition ignorable_line (line : string) : Prop :=
  all_space line = true
  \/ (exists ws rest, line = ws ++ "#" ++ rest /\ all_space ws = true)
  \/ contains "=" line = false.

(** The texts of a session. *)
Definition PROMPT_YOU : string := NL ++ "You: ".

Definition SORRY_LINE : string := printed "Bot: Sorry, I couldn't help with that.".

(** The human agent's reply to [user], handed off for [reason]. *)
Definition human_text (EM_DASH user reason : string) : string :=
  "[Human Agent] Hello " ++ EM_DASH ++ " I've received your request about: '"
  ++ user ++ "'. Reason: " ++ reason ++ ". We'll assist you shortly.".

(** The last text of the output is one of the two farewells. *)
Definition ends_with_goodbye (out : list string) : Prop :=
  exists front,
    out = (front ++ [printed "Goodbye."])%list
    \/ out = (front ++ [printed (NL ++ "Goodbye.")])%list.

(** The exception and the log that a run leaves. *)
Definition run_result (r : Run) : option exn * list LogEntry := fst r.

(** The lines of the input that are not blank. *)
Definition nonblank_lines (stdin : list string) : list string :=
  filter (fun line => nonempty (strip line)) stdin.

(** * Properties *)

Arguments detect_offensive_or_negative : simpl never.
Arguments order_tool_enabled_predicate : simpl never.
Arguments order_error_function : simpl never.
Arguments search_order_id : simpl never.
Arguments contains : simpl never.
Arguments dict_get : simpl never.
Arguments BotAgent.verified : simpl never.
Arguments BotAgent.auto_or_required : simpl never.

(** ** Sample runs *)

Example search_order_id_first_word :
  search_order_id "XY12 A1 B22x c33 D4567." = Some "D4567".
Proof. reflexivity. Qed.

Example strip_lower_sample : faq_text "  Hello World  " = "hello world".
Proof. reflexivity. Qed.

Example prompt_without_id :
  BotAgent.handle (bot default_settings) "check order" []
  = (inr (reply PROMPT_FOR_ID), []).
Proof. reflexivity. Qed.

Example negative_with_eligible_input :
  BotAgent.handle (bot default_settings) "I am angry about my order" []
  = (inr (reply_handoff "negative_sentiment"
            "I can see you're upset. I'll transfer you to a human agent for support."),
     [entry_escalation "negative_sentiment" "I am angry about my order"]).
Proof. reflexivity. Qed.

Example joke_is_unknown :
  BotAgent.handle (bot default_settings) "tell me a joke" []
  = (inr UNKNOWN_OR_COMPLEX, [entry_escalation_reason "unknown_or_complex" "tell me a joke"]).
Proof. reflexivity. Qed.

(** ** The pattern and its occurrences *)

Lemma digit_is_word c : is_digit c = true -> is_word c = true.
Proof.
  destruct c as [[] [] [] [] [] [] [] []]; vm_compute; congruence.
Qed.

Lemma upper_is_word c : is_upper_AZ c = true -> is_word c = true.
Proof.
  destruct c as [[] [] [] [] [] [] [] []]; vm_compute; congruence.
Qed.

Lemma digits_then_boundary_sound s :
  forall n prev m,
    is_word prev = true ->
    digits_then_boundary n prev s = Some m ->
    exists post,
      s = m ++ post /\ all_digits m = true /\ 2 <= n + String.length m
      /\ opt_word (head post) = false.
Proof.
  assert (Hstop : forall n prev s0 m,
             is_word prev = true ->
             (if (2 <=? n)%nat && word_boundary (Some prev) (head s0)
              then Some EmptyString else None) = Some m ->
             exists post,
               s0 = m ++ post /\ all_digits m = true /\ 2 <= n + String.length m
               /\ opt_word (head post) = false).
  { intros n prev s0 m Hw H.
    destruct ((2 <=? n)%nat && word_boundary (Some prev) (head s0)) eqn:E;
      [|discriminate].
    injection H as <-. apply andb_true_iff in E as [En Eb].
    apply Nat.leb_le in En. unfold word_boundary in Eb. simpl in Eb.
    rewrite Hw in Eb. exists s0. repeat split; simpl; try lia.
    now destruct (opt_word (head s0)). }
  induction s as [|c s IH]; intros n prev m Hw H; simpl in H.
  - now apply (Hstop n prev EmptyString).
  - destruct (is_digit c) eqn:Hd.
    + destruct (digits_then_boundary (S n) c s) as [m'|] eqn:Hrec.
      * injection H as <-.
        destruct (IH _ _ _ (digit_is_word _ Hd) Hrec) as (post & -> & Hall & Hlen & Hpost).
        exists post. simpl. rewrite Hd, Hall. repeat split; auto. lia.
      * now apply (Hstop n prev (String c s)).
    + now apply (Hstop n prev (String c s)).
Qed.

Lemma digits_then_boundary_complete ds :
  forall n prev post,
    is_word prev = true ->
    all_digits ds = true ->
    2 <= n + String.length ds ->
    opt_word (head post) = false ->
    digits_then_boundary n prev (ds ++ post) = Some ds.
Proof.
  induction ds as [|d ds IH]; intros n prev post Hw Hall Hlen Hpost; simpl in *.
  - assert (Hn : (2 <=? n)%nat = true) by (apply Nat.leb_le; lia).
    destruct post as [|c post]; simpl in *.
    + unfold word_boundary. simpl. now rewrite Hn, Hw.
    + destruct (is_digit c) eqn:Hd.
      * apply digit_is_word in Hd. congruence.
      * unfold word_boundary. simpl. now rewrite Hn, Hw, Hpost.
  - apply andb_true_iff in Hall as [Hd Hall]. rewrite Hd.
    rewrite (IH (S n) d post (digit_is_word _ Hd) Hall); [reflexivity | lia | assumption].
Qed.

Lemma match_here_sound prev s g :
  match_here prev s = Some g ->
  exists post,
    s = g ++ post /\ order_id_token g /\ opt_word prev = false
    /\ opt_word (head post) = false.
Proof.
  destruct s as [|c s]; simpl; [discriminate|].
  destruct (word_boundary prev (Some c) && is_upper_AZ c) eqn:E; [|discriminate].
  apply andb_true_iff in E as [Eb Eu].
  destruct (digits_then_boundary 0 c s) as [m|] eqn:Hm; [|discriminate].
  intros H. injection H as <-.
  destruct (digits_then_boundary_sound _ _ _ _ (upper_is_word _ Eu) Hm)
    as (post & -> & Hall & Hlen & Hpost).
  exists post. repeat split; auto.
  - exists c, m. repeat split; auto.
  - unfold word_boundary in Eb. simpl in Eb. rewrite (upper_is_word _ Eu) in Eb.
    now destruct (opt_word prev).
Qed.

Lemma search_from_sound s :
  forall prev g,
    search_from prev s = Some g ->
    exists pre post,
      s = pre ++ g ++ post /\ order_id_token g
      /\ opt_word (last_from prev pre) = false
      /\ opt_word (head post) = false.
Proof.
  induction s as [|c s IH]; intros prev g H.
  - simpl in H. discriminate.
  - cbn [search_from] in H.
    destruct (match_here prev (String c s)) as [g'|] eqn:Hm.
    + injection H as ->.
      destruct (match_here_sound _ _ _ Hm) as (post & Hs & Htok & Hprev & Hpost).
      exists EmptyString, post. simpl. auto.
    + destruct (IH _ _ H) as (pre & post & -> & Htok & Hprev & Hpost).
      exists (String c pre), post. simpl. auto.
Qed.

Lemma search_from_complete pre :
  forall prev g post,
    order_id_token g ->
    opt_word (last_from prev pre) = false ->
    opt_word (head post) = false ->
    search_from prev (pre ++ g ++ post) <> None.
Proof.
  induction pre as [|a pre IH]; intros prev g post Htok Hprev Hpost.
  - destruct Htok as (c & ds & -> & Hu & Hall & Hlen).
    simpl in Hprev. cbn [String.append search_from match_here].
    unfold word_boundary. cbn [opt_word]. rewrite Hprev, (upper_is_word _ Hu), Hu.
    cbn [xorb andb].
    rewrite (digits_then_boundary_complete ds 0 c post (upper_is_word _ Hu) Hall Hlen Hpost).
    discriminate.
  - cbn [String.append search_from].
    destruct (match_here prev (String a (pre ++ g ++ post))); [discriminate|].
    now apply IH.
Qed.

Lemma search_order_id_some_iff text :
  (exists g, search_order_id text = Some g) <-> token_occurs_as_word text.
Proof.
  unfold search_order_id. split.
  - intros [g H]. destruct (search_from_sound _ _ _ H) as (pre & post & ? & ? & ? & ?).
    now exists pre, g, post.
  - intros (pre & g & post & -> & Htok & Hprev & Hpost).
    destruct (search_from None (pre ++ g ++ post)) as [g'|] eqn:E.
    + now exists g'.
    + now apply search_from_complete in E.
Qed.

(** ** The FAQ loop *)

Lemma faq_loop_none self q user_input keys log :
  (forall k, In k keys -> contains k q = false) ->
  BotAgent.faq_loop self q user_input keys log = (inr None, log).
Proof.
  induction keys as [|k keys IH]; intros H; simpl.
  - reflexivity.
  - rewrite (H k (or_introl eq_refl)). apply IH. intros k' Hk'. apply H. now right.
Qed.

Lemma faq_loop_find self q user_input keys k answer log :
  find (fun k => contains k q) keys = Some k ->
  dict_get k (BotAgent.faqs self) = Some answer ->
  BotAgent.faq_loop self q user_input keys log
  = (inr (Some (reply answer)), (log ++ [entry_faq k user_input])%list).
Proof.
  intros Hfind Hget. induction keys as [|k0 keys IH]; simpl in *.
  - discriminate.
  - destruct (contains k0 q) eqn:Hc.
    + injection Hfind as ->. unfold bind, log_event. now rewrite Hget.
    + now apply IH.
Qed.

Lemma find_none_no_match q keys :
  find (fun k => contains k q) keys = None ->
  forall k, In k keys -> contains k q = false.
Proof.
  intros H k Hk. exact (find_none _ _ H k Hk).
Qed.

(** Every key of the table has an answer. *)
Lemma FAQS_keys_have_answers k :
  In k (dict_keys FAQS) -> exists answer, dict_get k FAQS = Some answer.
Proof.
  simpl. intros [<-|[<-|[<-|[]]]]; eexists; reflexivity.
Qed.

Lemma tools_lookup st :
  dict_get "get_order_status" (BotAgent.tools (bot st)) = Some get_order_status.
Proof. reflexivity. Qed.

(** ** [handle] follows [route] *)

Lemma handle_route st user_input log :
  exists o written,
    BotAgent.handle (bot st) user_input log = (inr o, (log ++ written)%list)
    /\ route st user_input o written.
Proof.
  unfold BotAgent.handle, guardrail.
  destruct (offensive (detect_offensive_or_negative user_input)) eqn:Hg.
  { do 2 eexists. split; [reflexivity|]. now constructor. }
  unfold BotAgent.handle_body. cbv zeta. unfold bind at 1.
  change (lower (strip user_input)) with (faq_text user_input).
  change (BotAgent.faqs (bot st)) with FAQS.
  destruct (find (fun k => contains k (faq_text user_input)) (dict_keys FAQS))
    as [k|] eqn:Hfind.
  { destruct (FAQS_keys_have_answers k) as [answer Ha].
    { apply find_some in Hfind. tauto. }
    rewrite (faq_loop_find (bot st) _ user_input _ k answer log Hfind Ha).
    do 2 eexists. split; [reflexivity|]. now apply route_faq with (k := k). }
  pose proof (find_none_no_match _ _ Hfind) as Hf.
  rewrite (faq_loop_none _ _ _ _ _ Hf).
  rewrite tools_lookup. cbn -[String.eqb].
  destruct (String.eqb (ModelSettings.tool_choice st) "required"
            && negb (order_tool_enabled_predicate user_input)) eqn:Hreq.
  { apply andb_true_iff in Hreq as [Hc He].
    apply String.eqb_eq in Hc. apply negb_true_iff in He.
    do 2 eexists. split; [reflexivity|]. now constructor. }
  destruct (order_tool_enabled_predicate user_input
            && BotAgent.auto_or_required (ModelSettings.tool_choice st)) eqn:Hen.
  2:{ do 2 eexists. split; [reflexivity|]. now constructor. }
  apply andb_true_iff in Hen as [He Hc].
  destruct (search_order_id user_input) as [order_id|] eqn:Hs.
  - unfold bind, get_order_status_func, log_event, ret.
    destruct (dict_get order_id SIMULATED_ORDERS) as [o|] eqn:Ho; cbn.
    + eexists. exists [entry_tool_invoked user_input order_id; entry_tool_success order_id].
      split.
      * rewrite <- app_assoc. reflexivity.
      * apply route_tool_success; assumption.
    + eexists. exists [entry_tool_invoked user_input order_id; entry_tool_error order_id].
      split.
      * rewrite <- app_assoc. reflexivity.
      * apply route_tool_error; assumption.
  - destruct (negative (detect_offensive_or_negative user_input)) eqn:Hn.
    + do 2 eexists. split; [reflexivity|]. now constructor.
    + exists (reply PROMPT_FOR_ID), []. split.
      * now rewrite app_nil_r.
      * now constructor.
Qed.

(** ** Words and tests *)

Lemma detect_offensive_iff user_input :
  offensive (detect_offensive_or_negative user_input) = true
  <-> has_word OFFENSIVE_WORDS user_input.
Proof.
  unfold detect_offensive_or_negative, has_word. cbn [offensive].
  now rewrite existsb_exists.
Qed.


Lemma detect_negative_iff user_input :
  negative (detect_offensive_or_negative user_input) = true
  <-> has_word NEGATIVE_WORDS user_input.
Proof.
  unfold detect_offensive_or_negative, has_word. cbn [negative].
  now rewrite existsb_exists.
Qed.


Lemma auto_or_required_iff tool_choice :
  BotAgent.auto_or_required tool_choice = true
  <-> (tool_choice = "auto" \/ tool_choice = "required").
Proof.
  unfold BotAgent.auto_or_required.
  now rewrite orb_true_iff, !String.eqb_eq.
Qed.


Lemma auto_or_required_false tool_choice :
  BotAgent.auto_or_required tool_choice = false
  <-> (tool_choice <> "auto" /\ tool_choice <> "required").
Proof.
  unfold BotAgent.auto_or_required.
  rewrite orb_false_iff, !String.eqb_neq. tauto.
Qed.


(** ** The claims *)

Ltac route_cases H :=
  inversion H; subst; clear H.

(** C1 (as stated, refuted): on "I am so angry about this" and the default
    settings the reply is a handoff, but its reason is [unknown_or_complex],
    not [negative_sentiment]; the input holds no order id, no FAQ key and
    no offensive word, and it does hold a negative word. *)
Lemma C1_angry_not_negative_sentiment :
  search_order_id "I am so angry about this" = None
  /\ offensive (detect_offensive_or_negative "I am so angry about this") = false
  /\ negative (detect_offensive_or_negative "I am so angry about this") = true
  /\ exists o written,
       BotAgent.handle (bot default_settings) "I am so angry about this" []
       = (inr o, written)
       /\ handoff o = true
       /\ reason o = Some "unknown_or_complex"
       /\ reason o <> Some "negative_sentiment".
Proof.
  repeat split; try reflexivity.
  do 2 eexists. split; [vm_compute; reflexivity|].
  split; [reflexivity|]. split; [reflexivity|discriminate].
Qed.

(** C1 (amended): on "I am so angry about this" and the default settings,
    [handle] returns a handoff with reason [unknown_or_complex] and logs
    that escalation reason: the input is not eligible for the order tool,
    and the negative-sentiment check runs only for an input that is
    eligible for the tool and from which no order id was extracted. *)
Theorem C1_angry_unknown_or_complex :
  order_tool_enabled_predicate "I am so angry about this" = false
  /\ (forall log,
        exists o,
          BotAgent.handle (bot default_settings) "I am so angry about this" log
          = (inr o,
             (log ++ [entry_escalation_reason "unknown_or_complex"
                        "I am so angry about this"])%list)
          /\ handled o = false
          /\ handoff o = true
          /\ reason o = Some "unknown_or_complex"
          /\ message o = "I'm not sure about that. I'll hand you over to a human agent.")
  /\ (forall st user_input log o log',
        BotAgent.handle (bot st) user_input log = (inr o, log') ->
        reason o = Some "negative_sentiment" ->
        tool_eligible user_input
        /\ search_order_id user_input = None
        /\ has_word NEGATIVE_WORDS user_input).
Proof.
  split; [reflexivity|]. split.
  - intros log.
    destruct (handle_route default_settings "I am so angry about this" log)
      as (o & written & Heq & Hr).
    exists o. route_cases Hr; try discriminate.
    split; [exact Heq|]. repeat split.
  - intros st user_input log o log' H Hreason.
    destruct (handle_route st user_input log) as (o' & written & Heq & Hr).
    rewrite Heq in H. injection H as <- <-.
    route_cases Hr; try discriminate Hreason.
    repeat split; auto. now apply detect_negative_iff.
Qed.

(** C2 (as stated, refuted): "check order A100" makes [handle] write two
    log lines, the tool's own [tool_invoked] and then [tool_success];
    "check order" makes it write none. *)
Lemma C2_log_writes_not_exactly_one :
  (exists o written,
     BotAgent.handle (bot default_settings) "check order A100" [] = (inr o, written)
     /\ map event_type written = ["tool_invoked"; "tool_success"]
     /\ length written = 2)
  /\ (exists o written,
        BotAgent.handle (bot default_settings) "check order" [] = (inr o, written)
        /\ length written = 0).
Proof.
  split; do 2 eexists; (split; [vm_compute; reflexivity|]); repeat split.
Qed.

(** C2 (amended): every call of [handle] returns exactly one reply and
    raises nothing, and writes at most two log lines.  The tests on the
    input and the settings select the branch, and on every branch but the
    prompt for an order id the last line written names that branch; it is
    the only line of the call, except on the tool-success and tool-error
    branches, where the tool's [tool_invoked] line comes before it. *)
Theorem C2_one_reply_and_branch_log st user_input log :
  exists o written,
    BotAgent.handle (bot st) user_input log = (inr o, (log ++ written)%list)
    /\ length written <= 2
    /\ ( (has_word OFFENSIVE_WORDS user_input
          /\ handled o = true /\ guardrail_flag o = true
          /\ map event_type written = ["guardrail_triggered"])
      \/ (~ has_word OFFENSIVE_WORDS user_input
          /\ (exists k,
                matches_faq user_input k /\ dict_get k FAQS = Some (message o)
                /\ written = [entry_faq k user_input])
          /\ handled o = true
          /\ map event_type written = ["faq_answered"])
      \/ (~ has_word OFFENSIVE_WORDS user_input
          /\ matches_no_faq user_input
          /\ ModelSettings.tool_choice st = "required"
          /\ ~ tool_eligible user_input
          /\ handoff o = true /\ reason o = Some "tool_required_but_disabled"
          /\ map event_type written = ["escalation_reason"])
      \/ (~ has_word OFFENSIVE_WORDS user_input
          /\ matches_no_faq user_input
          /\ tool_eligible user_input
          /\ (ModelSettings.tool_choice st = "auto"
              \/ ModelSettings.tool_choice st = "required")
          /\ (exists order_id,
                search_order_id user_input = Some order_id
                /\ dict_get order_id SIMULATED_ORDERS = None)
          /\ handled o = true /\ tool_error o = true
          /\ map event_type written = ["tool_invoked"; "tool_error"])
      \/ (~ has_word OFFENSIVE_WORDS user_input
          /\ matches_no_faq user_input
          /\ tool_eligible user_input
          /\ (ModelSettings.tool_choice st = "auto"
              \/ ModelSettings.tool_choice st = "required")
          /\ (exists order_id record,
                search_order_id user_input = Some order_id
                /\ dict_get order_id SIMULATED_ORDERS = Some record)
          /\ handled o = true /\ tool_error o = false
          /\ map event_type written = ["tool_invoked"; "tool_success"])
      \/ (~ has_word OFFENSIVE_WORDS user_input
          /\ matches_no_faq user_input
          /\ tool_eligible user_input
          /\ (ModelSettings.tool_choice st = "auto"
              \/ ModelSettings.tool_choice st = "required")
          /\ search_order_id user_input = None
          /\ has_word NEGATIVE_WORDS user_input
          /\ handoff o = true /\ reason o = Some "negative_sentiment"
          /\ map event_type written = ["escalation"])
      \/ (~ has_word OFFENSIVE_WORDS user_input
          /\ matches_no_faq user_input
          /\ tool_eligible user_input
          /\ (ModelSettings.tool_choice st = "auto"
              \/ ModelSettings.tool_choice st = "required")
          /\ search_order_id user_input = None
          /\ ~ has_word NEGATIVE_WORDS user_input
          /\ handled o = true
          /\ message o
             = "Could you please provide your order ID (format like A100) so I can check the status?")
      \/ (~ has_word OFFENSIVE_WORDS user_input
          /\ matches_no_faq user_input
          /\ ((~ tool_eligible user_input
               /\ ModelSettings.tool_choice st <> "required")
              \/ (tool_eligible user_input
                  /\ ModelSettings.tool_choice st <> "auto"
                  /\ ModelSettings.tool_choice st <> "required"))
          /\ handoff o = true /\ reason o = Some "unknown_or_complex"
          /\ map event_type written = ["escalation_reason"]) ).
Proof.
  destruct (handle_route st user_input log) as (o & written & Heq & Hr).
  exists o, written. split; [exact Heq|].
  assert (Hclean : passes_guardrail user_input -> ~ has_word OFFENSIVE_WORDS user_input).
  { unfold passes_guardrail. rewrite <- detect_offensive_iff. congruence. }
  unfold tool_eligible.
  route_cases Hr; (split; [simpl; lia|]).
  - left. repeat split. now apply detect_offensive_iff.
  - right; left. split; [auto|]. split; [|split; reflexivity].
    exists k.
    match goal with H : find _ _ = Some _ |- _ => apply find_some in H as [Hin Hc] end.
    repeat split; assumption.
  - do 2 right; left. repeat split; auto. congruence.
  - do 3 right; left. repeat split; auto.
    + now apply auto_or_required_iff.
    + now exists order_id.
  - do 4 right; left. repeat split; auto.
    + now apply auto_or_required_iff.
    + now exists order_id, o0.
  - do 5 right; left. repeat split; auto.
    + now apply auto_or_required_iff.
    + now apply detect_negative_iff.
  - do 6 right; left. repeat split; auto.
    + now apply auto_or_required_iff.
    + rewrite <- detect_negative_iff. congruence.
  - do 7 right. split; [auto|]. split; [assumption|]. split; [|repeat split].
    destruct (order_tool_enabled_predicate user_input) eqn:He.
    + right. split; [reflexivity|]. apply auto_or_required_false.
      match goal with H : true && _ = false |- _ => exact H end.
    + left. split; [discriminate|]. intros Hc.
      match goal with H : (_ =? "required") && _ = false |- _ =>
        rewrite Hc in H; discriminate H end.
Qed.

(** C3 (as stated, refuted): "XY12" holds an upper-case letter followed by
    two digits ("Y12"), yet the predicate rejects it; so does "A12x". *)
Lemma C3_pattern_needs_word_boundaries :
  order_tool_enabled_predicate "XY12" = false
  /\ (contains "order" (lower "XY12") = true \/ token_occurs "XY12")
  /\ order_tool_enabled_predicate "A12x" = false
  /\ (contains "order" (lower "A12x") = true \/ token_occurs "A12x").
Proof.
  split; [reflexivity|]. split.
  { right. exists "X", "Y12", EmptyString. split; [reflexivity|].
    exists "Y"%char, "12". repeat split; simpl; lia. }
  split; [reflexivity|].
  right. exists EmptyString, "A12", "x". split; [reflexivity|].
  exists "A"%char, "12". repeat split; simpl; lia.
Qed.

(** C3 (amended): the predicate is true exactly when the lower-cased text
    contains "order", or the raw text holds one upper-case ASCII letter
    followed by two or more digits as a word of its own, with no letter,
    digit or underscore right before or right after it.  It is true on
    "please check order" and on "A12 status", and false on
    "status of XY1". *)
Theorem C3_eligible_iff :
  (forall text,
     order_tool_enabled_predicate text = true
     <-> (contains "order" (lower text) = true \/ token_occurs_as_word text))
  /\ order_tool_enabled_predicate "please check order" = true
  /\ order_tool_enabled_predicate "status of XY1" = false
  /\ order_tool_enabled_predicate "A12 status" = true.
Proof.
  split; [|repeat split].
  intros text. unfold order_tool_enabled_predicate. cbv zeta.
  rewrite orb_true_iff, <- search_order_id_some_iff.
  destruct (search_order_id text) as [g|].
  - split; intros _; right; [now exists g | reflexivity].
  - split.
    + intros [H|H]; [now left | discriminate].
    + intros [H|[g H]]; [now left | discriminate].
Qed.

Lemma verified_iff md cid :
  BotAgent.verified md cid = true <-> metadata_customer_is md cid.
Proof.
  unfold BotAgent.verified, metadata_customer_is.
  destruct (dict_get "customer_id" md) as [v|].
  - destruct v as [|b|s|d]; simpl.
    + split; [discriminate | intros (s & H & _); discriminate].
    + rewrite andb_false_r. split; [discriminate | intros (s & H & _); discriminate].
    + rewrite andb_true_iff, String.eqb_eq. split.
      * intros [Hne ->]. exists cid. repeat split. intros ->. discriminate.
      * intros (s' & H & Hne & <-). injection H as <-. split; [|reflexivity].
        destruct s; [contradiction | reflexivity].
    + rewrite andb_false_r. split; [discriminate | intros (s & H & _); discriminate].
  - split; [discriminate | intros (s & H & _); discriminate].
Qed.

Lemma find_first_split {A : Type} (f : A -> bool) (l : list A) (x : A) :
  find f l = Some x ->
  exists pre post,
    l = (pre ++ x :: post)%list /\ f x = true /\ forall y, In y pre -> f y = false.
Proof.
  induction l as [|a l IH]; simpl; [discriminate|].
  destruct (f a) eqn:Ha.
  - intros H. injection H as <-. exists [], l. repeat split; auto. intros y [].
  - intros H. destruct (IH H) as (pre & post & -> & Hx & Hpre).
    exists (a :: pre), post. repeat split; auto.
    intros y [<-|Hy]; auto.
Qed.

(** C4: on "check order A100" with [tool_choice] at its default, [handle]
    answers with the status line of order A100, to which " (Verified
    customer)" is appended exactly when the metadata's customer_id is
    non-empty and equal to the record's; so it is appended for "12345", and
    not for "99999" nor for the default, empty metadata. *)
Theorem C4_order_A100_message :
  exists record,
    dict_get "A100" SIMULATED_ORDERS = Some record
    /\ (forall md log,
          exists o,
            BotAgent.handle (bot (ModelSettings.init None (Some md))) "check order A100" log
            = (inr o, (log ++ [entry_tool_invoked "check order A100" "A100";
                               entry_tool_success "A100"])%list)
            /\ handled o = true /\ tool_error o = false
            /\ (metadata_customer_is md (customer_id record)
                -> message o = A100_LINE ++ " (Verified customer)")
            /\ (~ metadata_customer_is md (customer_id record)
                -> message o = A100_LINE))
    /\ (forall log,
          BotAgent.handle (bot default_settings) "check order A100" log
          = (inr (reply A100_LINE),
             (log ++ [entry_tool_invoked "check order A100" "A100";
                      entry_tool_success "A100"])%list))
    /\ (forall log,
          fst (BotAgent.handle
                 (bot (ModelSettings.init None (Some [("customer_id", PStr "12345")])))
                 "check order A100" log)
          = inr (reply (A100_LINE ++ " (Verified customer)")))
    /\ (forall log,
          fst (BotAgent.handle
                 (bot (ModelSettings.init None (Some [("customer_id", PStr "99999")])))
                 "check order A100" log)
          = inr (reply A100_LINE)).
Proof.
  eexists. split; [reflexivity|].
  assert (Hgen : forall md log,
             BotAgent.handle (bot (ModelSettings.init None (Some md))) "check order A100" log
             = (inr (reply (if BotAgent.verified md "12345"
                            then A100_LINE ++ " (Verified customer)"
                            else A100_LINE)),
                (log ++ [entry_tool_invoked "check order A100" "A100";
                         entry_tool_success "A100"])%list)).
  { intros md log.
    destruct (handle_route (ModelSettings.init None (Some md)) "check order A100" log)
      as (o & written & -> & Hr).
    route_cases Hr; try discriminate;
      match goal with H : search_order_id _ = Some _ |- _ =>
        vm_compute in H; injection H as <- end;
      match goal with H : dict_get _ SIMULATED_ORDERS = _ |- _ =>
        vm_compute in H; try discriminate H; injection H as <- end.
    reflexivity. }
  split; [|split; [|split]].
  - intros md log. rewrite Hgen. cbn [customer_id].
    destruct (BotAgent.verified md "12345") eqn:Hv; eexists; (split; [reflexivity|]);
      repeat split.
    + intros Hno. exfalso. apply Hno. now apply verified_iff.
    + intros Hyes. apply verified_iff in Hyes. congruence.
  - intros log. apply (Hgen []).
  - intros log. now rewrite Hgen.
  - intros log. now rewrite Hgen.
Qed.

(** C5: when the input holds an offensive word, in any letter case, the
    decorator answers with the fixed apology, a handled reply flagged
    [guardrail] that asks to rephrase, and logs [guardrail_triggered]; the
    reply and the log do not depend on the wrapped handler, whose body is
    not run, whatever else the input holds. *)
Theorem C5_offensive_input_blocked (self : BotAgent.t) (user_input : string)
    (log : list LogEntry) :
  has_word OFFENSIVE_WORDS user_input ->
  exists o,
    BotAgent.handle self user_input log
    = (inr o, (log ++ [entry_guardrail user_input])%list)
    /\ handled o = true
    /\ handoff o = false
    /\ guardrail_flag o = true
    /\ tool_error o = false
    /\ action o = Some "block_or_rephrase"
    /\ reason o = None
    /\ message o
       = "I'm here to help, but I can't respond to offensive language. Could you rephrase your question?"
    /\ forall body : BotAgent.t -> string -> M Outcome,
         guardrail body self user_input log
         = (inr o, (log ++ [entry_guardrail user_input])%list).
Proof.
  intros H. apply detect_offensive_iff in H.
  assert (Hb : forall body : BotAgent.t -> string -> M Outcome,
             guardrail body self user_input log
             = (inr reply_guardrail, (log ++ [entry_guardrail user_input])%list)).
  { intros body. unfold guardrail. now rewrite H. }
  exists reply_guardrail. split; [apply Hb|]. repeat split. exact Hb.
Qed.

Lemma C5_witness :
  exists o,
    BotAgent.handle (bot default_settings)
      "I HATE this, what is your return policy for order A100? I am angry" []
    = (inr o,
       ([] ++ [entry_guardrail
                 "I HATE this, what is your return policy for order A100? I am angry"])%list)
    /\ handled o = true
    /\ handoff o = false
    /\ guardrail_flag o = true
    /\ tool_error o = false
    /\ action o = Some "block_or_rephrase"
    /\ reason o = None
    /\ message o
       = "I'm here to help, but I can't respond to offensive language. Could you rephrase your question?"
    /\ forall body : BotAgent.t -> string -> M Outcome,
         guardrail body (bot default_settings)
           "I HATE this, what is your return policy for order A100? I am angry" []
         = (inr o,
            ([] ++ [entry_guardrail
                      "I HATE this, what is your return policy for order A100? I am angry"])%list).
Proof.
  apply (C5_offensive_input_blocked (bot default_settings)
           "I HATE this, what is your return policy for order A100? I am angry" []).
  exists "hate". split; [simpl; tauto | reflexivity].
Defined.

(** C6: when the lower-cased, stripped input contains an FAQ key and the
    input holds no offensive word, [handle] answers a handled reply whose
    message is exactly the canned answer of the first key of the table, in
    table order, that the text contains, and logs [faq_answered] for that
    key. *)
Theorem C6_faq_first_match (st : ModelSettings.t) (user_input : string)
    (log : list LogEntry) :
  ~ has_word OFFENSIVE_WORDS user_input ->
  (exists k, matches_faq user_input k) ->
  exists k answer pre post o,
    dict_keys FAQS = (pre ++ k :: post)%list
    /\ (forall k', In k' pre -> contains k' (faq_text user_input) = false)
    /\ contains k (faq_text user_input) = true
    /\ dict_get k FAQS = Some answer
    /\ BotAgent.handle (bot st) user_input log
       = (inr o, (log ++ [entry_faq k user_input])%list)
    /\ handled o = true
    /\ handoff o = false
    /\ guardrail_flag o = false
    /\ tool_error o = false
    /\ message o = answer.
Proof.
  intros Hoff [k0 [Hk0 Hc0]].
  destruct (handle_route st user_input log) as (o & written & Heq & Hr).
  route_cases Hr;
    try match goal with
        | H : matches_no_faq _ |- _ => specialize (H k0 Hk0); congruence
        end.
  - exfalso. apply Hoff. now apply detect_offensive_iff.
  - match goal with H : find _ _ = Some _ |- _ =>
      destruct (find_first_split _ _ _ H) as (pre & post & Hsplit & Hk & Hpre) end.
    exists k, answer, pre, post, (reply answer). repeat split; auto.
Qed.

Lemma C6_witness :
  exists k answer pre post o,
    dict_keys FAQS = (pre ++ k :: post)%list
    /\ (forall k', In k' pre ->
          contains k' (faq_text "  How to contact support? And what is your RETURN policy? ") = false)
    /\ contains k (faq_text "  How to contact support? And what is your RETURN policy? ") = true
    /\ dict_get k FAQS = Some answer
    /\ BotAgent.handle (bot default_settings)
         "  How to contact support? And what is your RETURN policy? " []
       = (inr o,
          ([] ++ [entry_faq k "  How to contact support? And what is your RETURN policy? "])%list)
    /\ handled o = true
    /\ handoff o = false
    /\ guardrail_flag o = false
    /\ tool_error o = false
    /\ message o = answer.
Proof.
  apply (C6_faq_first_match default_settings
           "  How to contact support? And what is your RETURN policy? " []).
  - intros (w & Hw & Hc). simpl in Hw.
    repeat (destruct Hw as [<-|Hw]; [vm_compute in Hc; discriminate|]). exact Hw.
  - exists "how to contact support". split; [simpl; tauto | reflexivity].
Defined.

(** C7: on "order Z999" and the default settings, the id Z999 is extracted
    and is not in the table; [handle] raises nothing and answers a handled
    reply flagged [tool_error] whose message is the error handler's text,
    which names Z999 and advises to check the ID or contact support. *)
Theorem C7_order_Z999_not_found :
  search_order_id "order Z999" = Some "Z999"
  /\ dict_get "Z999" SIMULATED_ORDERS = None
  /\ err_message (order_error_function "Z999") = Z999_NOT_FOUND
  /\ contains "Z999" Z999_NOT_FOUND = true
  /\ contains "Please check the ID or contact support" Z999_NOT_FOUND = true
  /\ forall log,
       exists o,
         BotAgent.handle (bot default_settings) "order Z999" log
         = (inr o,
            (log ++ [entry_tool_invoked "order Z999" "Z999"; entry_tool_error "Z999"])%list)
         /\ handled o = true
         /\ handoff o = false
         /\ tool_error o = true
         /\ message o = Z999_NOT_FOUND.
Proof.
  repeat split. intros log.
  destruct (handle_route default_settings "order Z999" log) as (o & written & Heq & Hr).
  exists o.
  route_cases Hr; try discriminate;
    match goal with H : search_order_id _ = Some _ |- _ =>
      vm_compute in H; injection H as <- end;
    match goal with H : dict_get _ SIMULATED_ORDERS = _ |- _ =>
      vm_compute in H; try discriminate H end.
  split; [exact Heq|]. repeat split.
Qed.

Ltac faq_contradiction :=
  match goal with
  | Hf : matches_no_faq _, H : find _ _ = Some ?k |- _ =>
      let Hin := fresh in
      let Hc := fresh in
      apply find_some in H; destruct H as [Hin Hc];
      rewrite (Hf k Hin) in Hc; discriminate Hc
  end.

(** C8 (as stated, refuted): with [tool_choice] "none", the input
    "I am angry, where is my order A100" passes the guardrail, matches no
    FAQ key, is eligible for the tool, holds the order id A100 and holds a
    negative word, yet [handle] does not go to the order lookup: it hands
    off with reason [unknown_or_complex] and no [tool_invoked] line is
    written. *)
Lemma C8_other_tool_choice_skips_lookup :
  passes_guardrail "I am angry, where is my order A100"
  /\ matches_no_faq "I am angry, where is my order A100"
  /\ tool_eligible "I am angry, where is my order A100"
  /\ search_order_id "I am angry, where is my order A100" = Some "A100"
  /\ has_word NEGATIVE_WORDS "I am angry, where is my order A100"
  /\ exists o written,
       BotAgent.handle (bot (ModelSettings.init (Some "none") None))
         "I am angry, where is my order A100" []
       = (inr o, written)
       /\ handoff o = true
       /\ reason o = Some "unknown_or_complex"
       /\ map event_type written = ["escalation_reason"]
       /\ ~ In "tool_invoked" (map event_type written).
Proof.
  split; [reflexivity|]. split.
  { intros k Hk. simpl in Hk.
    repeat (destruct Hk as [<-|Hk]; [reflexivity|]). destruct Hk. }
  split; [reflexivity|]. split; [reflexivity|]. split.
  { exists "angry". split; [simpl; tauto | reflexivity]. }
  do 2 eexists. split; [vm_compute; reflexivity|].
  split; [reflexivity|]. split; [reflexivity|]. split; [reflexivity|].
  simpl. intros [H|[]]. discriminate H.
Qed.

(** C8 (amended): an input that passes the guardrail, matches no FAQ key,
    is eligible for the tool, holds an extractable order id and holds a
    negative word never gets the [negative_sentiment] handoff; when
    [tool_choice] is "auto" or "required" the order tool is invoked on the
    extracted id and the reply is the handled reply of the lookup.
    Whenever [handle] does answer [negative_sentiment], the input was
    eligible for the tool and no order id could be extracted from it. *)
Theorem C8_order_id_before_negative (st : ModelSettings.t) (user_input : string)
    (log : list LogEntry) :
  exists o written,
    BotAgent.handle (bot st) user_input log = (inr o, (log ++ written)%list)
    /\ (forall order_id,
          passes_guardrail user_input ->
          matches_no_faq user_input ->
          tool_eligible user_input ->
          search_order_id user_input = Some order_id ->
          has_word NEGATIVE_WORDS user_input ->
          reason o <> Some "negative_sentiment"
          /\ (ModelSettings.tool_choice st = "auto"
              \/ ModelSettings.tool_choice st = "required" ->
              handled o = true
              /\ exists e,
                   written = [entry_tool_invoked user_input order_id; e]
                   /\ (e = entry_tool_success order_id \/ e = entry_tool_error order_id)))
    /\ (reason o = Some "negative_sentiment" ->
        tool_eligible user_input
        /\ search_order_id user_input = None
        /\ has_word NEGATIVE_WORDS user_input).
Proof.
  destruct (handle_route st user_input log) as (o & written & Heq & Hr).
  exists o, written. split; [exact Heq|]. split.
  - intros order_id Hg Hf He Hs Hn. unfold passes_guardrail, tool_eligible in *.
    route_cases Hr; try congruence; try faq_contradiction.
    + split; [discriminate|]. intros _. split; [reflexivity|].
      eexists. split; [|right; reflexivity]. congruence.
    + split; [discriminate|]. intros _. split; [reflexivity|].
      eexists. split; [|left; reflexivity]. congruence.
    + split; [discriminate|]. intros Hc. apply auto_or_required_iff in Hc.
      rewrite He, Hc in *. discriminate.
  - intros Hreason.
    route_cases Hr; try discriminate Hreason.
    repeat split; auto. now apply detect_negative_iff.
Qed.

Lemma C8_witness :
  exists o written,
    BotAgent.handle (bot default_settings) "I am angry, where is my order A100" []
    = (inr o, ([] ++ written)%list)
    /\ reason o <> Some "negative_sentiment"
    /\ handled o = true
    /\ exists e,
         written = [entry_tool_invoked "I am angry, where is my order A100" "A100"; e]
         /\ (e = entry_tool_success "A100" \/ e = entry_tool_error "A100").
Proof.
  destruct (C8_order_id_before_negative default_settings
              "I am angry, where is my order A100" [])
    as (o & written & Heq & Hfirst & _).
  exists o, written. split; [exact Heq|].
  destruct (Hfirst "A100") as [Hreason Hlookup].
  - reflexivity.
  - intros k Hk. simpl in Hk.
    repeat (destruct Hk as [<-|Hk]; [reflexivity|]). destruct Hk.
  - reflexivity.
  - reflexivity.
  - exists "angry". split; [simpl; tauto | reflexivity].
  - split; [exact Hreason|]. apply Hlookup. left. reflexivity.
Defined.





(** * Further properties of the code *)

(** ** Extraction of the order id *)

Lemma match_here_complete prev g post :
  order_id_token g ->
  opt_word prev = false ->
  opt_word (head post) = false ->
  match_here prev (g ++ post) = Some g.
Proof.
  intros (c & ds & -> & Hu & Hall & Hlen) Hprev Hpost.
  cbn [String.append match_here].
  unfold word_boundary. cbn [opt_word]. rewrite Hprev, (upper_is_word _ Hu), Hu.
  cbn [xorb andb].
  now rewrite (digits_then_boundary_complete ds 0 c post (upper_is_word _ Hu) Hall Hlen Hpost).
Qed.

Lemma search_from_leftmost s :
  forall prev g,
    search_from prev s = Some g ->
    exists pre post,
      s = pre ++ g ++ post
      /\ order_id_token g
      /\ opt_word (last_from prev pre) = false
      /\ opt_word (head post) = false
      /\ forall pre' g' post',
           s = pre' ++ g' ++ post' ->
           order_id_token g' ->
           opt_word (last_from prev pre') = false ->
           opt_word (head post') = false ->
           String.length pre <= String.length pre'
           /\ (String.length pre = String.length pre' -> g' = g).
Proof.
  induction s as [|c s IH]; intros prev g H.
  - simpl in H. discriminate.
  - cbn [search_from] in H.
    destruct (match_here prev (String c s)) as [g0|] eqn:Hm.
    + injection H as ->.
      destruct (match_here_sound _ _ _ Hm) as (post & Hs & Htok0 & Hprev0 & Hpost0).
      exists EmptyString, post.
      split; [exact Hs|]. split; [exact Htok0|]. split; [exact Hprev0|].
      split; [exact Hpost0|].
      intros pre' g' post' Hs' Htok Hprev Hpost. split; [simpl; lia|].
      intros Hlen. destruct pre'; [|discriminate Hlen].
      simpl in Hs', Hprev. rewrite Hs' in Hm.
      rewrite (match_here_complete _ _ _ Htok Hprev Hpost) in Hm. congruence.
    + destruct (IH _ _ H) as (pre & post & -> & Htok0 & Hprev0 & Hpost0 & Hleft).
      exists (String c pre), post.
      split; [reflexivity|]. split; [exact Htok0|]. split; [exact Hprev0|].
      split; [exact Hpost0|].
      intros pre' g' post' Hs' Htok Hprev Hpost.
      destruct pre' as [|c' pre'].
      * simpl in Hs', Hprev. rewrite Hs' in Hm.
        rewrite (match_here_complete _ _ _ Htok Hprev Hpost) in Hm. discriminate.
      * simpl in Hs'. injection Hs' as <- Hs'. simpl in Hprev.
        destruct (Hleft _ _ _ Hs' Htok Hprev Hpost) as [Hle Heq].
        split; [simpl; lia|]. intros Hlen. apply Heq. simpl in Hlen. lia.
Qed.

(** X1: the id that [re.search] hands to the order tool is the leftmost
    token of the text that stands as a word of its own: it is one upper-case
    letter followed by two or more digits, it occurs in the text between
    word boundaries, no such token starts earlier, and a token that starts
    at the same place is the same token. *)
Theorem X1_search_order_id_leftmost_token (text g : string) :
  search_order_id text = Some g ->
  order_id_token g
  /\ exists pre post,
       text = pre ++ g ++ post
       /\ opt_word (last_from None pre) = false
       /\ opt_word (head post) = false
       /\ forall pre' g' post',
            text = pre' ++ g' ++ post' ->
            order_id_token g' ->
            opt_word (last_from None pre') = false ->
            opt_word (head post') = false ->
            String.length pre <= String.length pre'
            /\ (String.length pre = String.length pre' -> g' = g).
Proof.
  unfold search_order_id. intros H.
  destruct (search_from_leftmost _ _ _ H) as (pre & post & Hs & Htok & Hprev & Hpost & Hleft).
  split; [exact Htok|]. exists pre, post. auto.
Qed.

Lemma X1_witness :
  order_id_token "B201"
  /\ exists pre post,
       "ref XB99, orders B201 and A100" = pre ++ "B201" ++ post
       /\ opt_word (last_from None pre) = false
       /\ opt_word (head post) = false
       /\ forall pre' g' post',
            "ref XB99, orders B201 and A100" = pre' ++ g' ++ post' ->
            order_id_token g' ->
            opt_word (last_from None pre') = false ->
            opt_word (head post') = false ->
            String.length pre <= String.length pre'
            /\ (String.length pre = String.length pre' -> g' = "B201").
Proof.
  apply (X1_search_order_id_leftmost_token "ref XB99, orders B201 and A100" "B201").
  reflexivity.
Defined.

(** ** [route] is a function of the settings and the input *)

Ltac route_clash :=
  unfold passes_guardrail in *;
  first
    [ congruence
    | faq_contradiction
    | match goal with
      | Hc : ModelSettings.tool_choice _ = "required",
        He : order_tool_enabled_predicate _ = false,
        H : (_ =? "required") && negb _ = false |- _ =>
          rewrite Hc, He in H; discriminate H
      | He : order_tool_enabled_predicate _ = true,
        Ha : BotAgent.auto_or_required _ = true,
        H : order_tool_enabled_predicate _ && _ = false |- _ =>
          rewrite He, Ha in H; discriminate H
      end ].

Lemma route_functional st user_input o1 w1 o2 w2 :
  route st user_input o1 w1 ->
  route st user_input o2 w2 ->
  o1 = o2 /\ w1 = w2.
Proof.
  intros H1 H2.
  route_cases H1; route_cases H2; try (split; reflexivity); try route_clash.
  - assert (k = k0) by congruence. subst k0.
    assert (answer = answer0) by congruence. subst answer0. split; reflexivity.
  - assert (order_id = order_id0) by congruence. subst order_id0. split; reflexivity.
  - assert (order_id = order_id0) by congruence. subst order_id0.
    assert (o = o0) by congruence. subst o0. split; reflexivity.
Qed.

(** ** The routing policy, branch by branch *)

Lemma FAQS_answer_inv k answer :
  dict_get k FAQS = Some answer ->
  In (k, answer) FAQS.
Proof.
  unfold FAQS, dict_get.
  repeat match goal with
         | |- context [String.eqb ?a ?b] =>
             destruct (String.eqb_spec a b); [subst; intros H; injection H as <-; simpl; tauto|]
         end.
  discriminate.
Qed.

(** X3: the shape of every reply.  A reply is either handled or a handoff,
    never both and never neither; it carries a reason exactly when it is a
    handoff, and the reason is one of the three escalation reasons; it is
    flagged [guardrail] exactly when the input holds an offensive word; a
    [tool_error] reply is a handled one; and its message is not empty. *)
Theorem X3_reply_shape (st : ModelSettings.t) (user_input : string)
    (log : list LogEntry) :
  exists o written,
    BotAgent.handle (bot st) user_input log = (inr o, (log ++ written)%list)
    /\ handled o = negb (handoff o)
    /\ (handoff o = true <-> reason o <> None)
    /\ (forall r, reason o = Some r ->
          r = "tool_required_but_disabled" \/ r = "negative_sentiment"
          \/ r = "unknown_or_complex")
    /\ (guardrail_flag o = true <-> has_word OFFENSIVE_WORDS user_input)
    /\ (tool_error o = true -> handled o = true)
    /\ message o <> EmptyString.
Proof.
  destruct (handle_route st user_input log) as (o & written & Heq & Hr).
  exists o, written. split; [exact Heq|].
  assert (Hflag : forall b, offensive (detect_offensive_or_negative user_input) = b ->
                    (b = true <-> has_word OFFENSIVE_WORDS user_input)).
  { intros b <-. apply detect_offensive_iff. }
  route_cases Hr; unfold passes_guardrail in *; cbn [handled handoff reason guardrail_flag
    tool_error message reply reply_tool_error reply_handoff reply_guardrail negb].
  all: split; [reflexivity|].
  all: split; [split; [discriminate | intros Hx; try reflexivity; now contradiction Hx]|].
  all: split; [intros r Hrr; try discriminate Hrr; injection Hrr as <-; tauto|].
  all: split; [ first [ apply (Hflag true); assumption
                      | rewrite <- (Hflag false) by assumption; split; discriminate ] |].
  all: split; [intros Hx; first [reflexivity | discriminate Hx]|].
  all: try discriminate.
  - match goal with H : dict_get _ FAQS = Some _ |- _ => apply FAQS_answer_inv in H;
      simpl in H; destruct H as [H|[H|[H|[]]]]; injection H as _ <-; discriminate end.
  - destruct (BotAgent.verified _ _); discriminate.
Qed.

Lemma str_app_assoc (a b c : string) : (a ++ b) ++ c = a ++ (b ++ c).
Proof.
  induction a as [|x a IH]; simpl; [reflexivity | now rewrite IH].
Qed.

Lemma str_app_nil_r (a : string) : a ++ EmptyString = a.
Proof.
  induction a as [|x a IH]; simpl; [reflexivity | now rewrite IH].
Qed.

(** X4: [handle] hands off with reason [negative_sentiment] exactly when the
    input holds no offensive word, matches no FAQ key, is eligible for the
    tool, holds no extractable order id and holds a negative word, and
    [tool_choice] is "auto" or "required"; the call then writes the one log
    line [escalation]. *)
Theorem X4_negative_sentiment_iff (st : ModelSettings.t) (user_input : string)
    (log : list LogEntry) :
  exists o written,
    BotAgent.handle (bot st) user_input log = (inr o, (log ++ written)%list)
    /\ (reason o = Some "negative_sentiment"
        <-> (~ has_word OFFENSIVE_WORDS user_input
             /\ matches_no_faq user_input
             /\ tool_eligible user_input
             /\ (ModelSettings.tool_choice st = "auto"
                 \/ ModelSettings.tool_choice st = "required")
             /\ search_order_id user_input = None
             /\ has_word NEGATIVE_WORDS user_input))
    /\ (reason o = Some "negative_sentiment" ->
        handoff o = true
        /\ written = [entry_escalation "negative_sentiment" user_input]).
Proof.
  destruct (handle_route st user_input log) as (o & written & Heq & Hr).
  exists o, written. split; [exact Heq|]. split; [split|].
  - intros Hreason. route_cases Hr; try discriminate Hreason.
    unfold passes_guardrail in *.
    repeat split; auto.
    + rewrite <- detect_offensive_iff. congruence.
    + now apply auto_or_required_iff.
    + now apply detect_negative_iff.
  - intros (Hoff & Hf & He & Hc & Hs & Hn).
    rewrite <- detect_offensive_iff in Hoff. apply detect_negative_iff in Hn.
    apply auto_or_required_iff in Hc. unfold tool_eligible in He.
    route_cases Hr; try reflexivity; route_clash.
  - intros Hreason. route_cases Hr; try discriminate Hreason. auto.
Qed.

(** X5: [handle] answers a [tool_error] reply exactly when the input holds
    no offensive word, matches no FAQ key, [tool_choice] is "auto" or
    "required", and the extracted order id is not a key of the order table.
    The message is then the error handler's text for that id, not the
    tool's own, and the call has written [tool_invoked] and [tool_error]
    for that id. *)
Theorem X5_unknown_order_id (st : ModelSettings.t) (user_input : string)
    (log : list LogEntry) :
  exists o written,
    BotAgent.handle (bot st) user_input log = (inr o, (log ++ written)%list)
    /\ (tool_error o = true
        <-> (~ has_word OFFENSIVE_WORDS user_input
             /\ matches_no_faq user_input
             /\ (ModelSettings.tool_choice st = "auto"
                 \/ ModelSettings.tool_choice st = "required")
             /\ exists order_id,
                  search_order_id user_input = Some order_id
                  /\ dict_get order_id SIMULATED_ORDERS = None))
    /\ (tool_error o = true ->
        exists order_id,
          search_order_id user_input = Some order_id
          /\ message o
             = "Order ID '" ++ order_id
               ++ "' not found. Please check the ID or contact support."
          /\ written = [entry_tool_invoked user_input order_id;
                        entry_tool_error order_id]).
Proof.
  destruct (handle_route st user_input log) as (o & written & Heq & Hr).
  exists o, written. split; [exact Heq|]. split; [split|].
  - intros Herr. route_cases Hr; try discriminate Herr.
    unfold passes_guardrail in *. repeat split; auto.
    + rewrite <- detect_offensive_iff. congruence.
    + now apply auto_or_required_iff.
    + now exists order_id.
  - intros (Hoff & Hf & Hc & order_id & Hs & Hget).
    rewrite <- detect_offensive_iff in Hoff. apply auto_or_required_iff in Hc.
    assert (He : order_tool_enabled_predicate user_input = true).
    { unfold order_tool_enabled_predicate. cbv zeta. rewrite Hs. apply orb_true_r. }
    route_cases Hr; try reflexivity; route_clash.
  - intros Herr. route_cases Hr; try discriminate Herr.
    exists order_id. auto.
Qed.

(** X6: when the input holds no offensive word, matches no FAQ key and
    [tool_choice] is "auto" or "required", and the extracted order id is a
    key of the order table, [handle] answers the status line of that
    record (id, status, ETA, items joined by ", "), with " (Verified
    customer)" appended exactly when the metadata's customer_id is
    non-empty and equal to the record's, and writes [tool_invoked] and
    [tool_success]. *)
Theorem X6_known_order_id (st : ModelSettings.t) (user_input : string)
    (log : list LogEntry) (order_id : string) (record : OrderRecord) :
  ~ has_word OFFENSIVE_WORDS user_input ->
  matches_no_faq user_input ->
  ModelSettings.tool_choice st = "auto" \/ ModelSettings.tool_choice st = "required" ->
  search_order_id user_input = Some order_id ->
  dict_get order_id SIMULATED_ORDERS = Some record ->
  exists o,
    BotAgent.handle (bot st) user_input log
    = (inr o, (log ++ [entry_tool_invoked user_input order_id;
                       entry_tool_success order_id])%list)
    /\ handled o = true /\ tool_error o = false /\ guardrail_flag o = false
    /\ (metadata_customer_is (ModelSettings.metadata st) (customer_id record) ->
        message o
        = "Order " ++ order_id ++ " is currently '" ++ status record ++ "'. ETA: "
          ++ eta record ++ ". Items: " ++ join ", " (items record) ++ "."
          ++ " (Verified customer)")
    /\ (~ metadata_customer_is (ModelSettings.metadata st) (customer_id record) ->
        message o
        = "Order " ++ order_id ++ " is currently '" ++ status record ++ "'. ETA: "
          ++ eta record ++ ". Items: " ++ join ", " (items record) ++ ".").
Proof.
  intros Hoff Hf Hc Hs Hget.
  rewrite <- detect_offensive_iff in Hoff. apply auto_or_required_iff in Hc.
  assert (He : order_tool_enabled_predicate user_input = true).
  { unfold order_tool_enabled_predicate. cbv zeta. rewrite Hs. apply orb_true_r. }
  destruct (handle_route st user_input log) as (o & written & Heq & Hr).
  exists o.
  route_cases Hr; try route_clash.
  assert (order_id0 = order_id) by congruence. subst order_id0.
  assert (o0 = record) by congruence. subst o0.
  split; [exact Heq|]. repeat split.
  - intros Hm. apply verified_iff in Hm. rewrite Hm. unfold order_line.
    cbn [message reply]. now rewrite !str_app_assoc.
  - intros Hm. rewrite <- verified_iff in Hm.
    destruct (BotAgent.verified _ _); [now contradiction Hm | reflexivity].
Qed.

Lemma X6_witness :
  exists o,
    BotAgent.handle
      (bot (ModelSettings.init (Some "required") (Some [("customer_id", PStr "67890")])))
      "where is B201?" []
    = (inr o, ([] ++ [entry_tool_invoked "where is B201?" "B201";
                      entry_tool_success "B201"])%list)
    /\ handled o = true /\ tool_error o = false /\ guardrail_flag o = false
    /\ (metadata_customer_is [("customer_id", PStr "67890")] "67890" ->
        message o
        = "Order " ++ "B201" ++ " is currently '" ++ "processing" ++ "'. ETA: "
          ++ "2025-09-10" ++ ". Items: " ++ join ", " ["Coffee Mug"] ++ "."
          ++ " (Verified customer)")
    /\ (~ metadata_customer_is [("customer_id", PStr "67890")] "67890" ->
        message o
        = "Order " ++ "B201" ++ " is currently '" ++ "processing" ++ "'. ETA: "
          ++ "2025-09-10" ++ ". Items: " ++ join ", " ["Coffee Mug"] ++ ".").
Proof.
  apply (X6_known_order_id
           (ModelSettings.init (Some "required") (Some [("customer_id", PStr "67890")]))
           "where is B201?" [] "B201"
           (mkOrder "processing" "2025-09-10" ["Coffee Mug"] "67890")).
  - intros (w & Hw & Hc). simpl in Hw.
    repeat (destruct Hw as [<-|Hw]; [vm_compute in Hc; discriminate|]). exact Hw.
  - intros k Hk. simpl in Hk.
    repeat (destruct Hk as [<-|Hk]; [reflexivity|]). destruct Hk.
  - right. reflexivity.
  - reflexivity.
  - reflexivity.
Defined.

(** X7: when the input holds no offensive word, matches no FAQ key, is
    eligible for the tool but holds no extractable order id and no negative
    word, and [tool_choice] is "auto" or "required", [handle] asks for the
    order id and leaves the log as it was: this branch writes no line. *)
Theorem X7_prompt_writes_no_log (st : ModelSettings.t) (user_input : string)
    (log : list LogEntry) :
  ~ has_word OFFENSIVE_WORDS user_input ->
  matches_no_faq user_input ->
  tool_eligible user_input ->
  ModelSettings.tool_choice st = "auto" \/ ModelSettings.tool_choice st = "required" ->
  search_order_id user_input = None ->
  ~ has_word NEGATIVE_WORDS user_input ->
  BotAgent.handle (bot st) user_input log
  = (inr (reply "Could you please provide your order ID (format like A100) so I can check the status?"),
     log).
Proof.
  intros Hoff Hf He Hc Hs Hn.
  rewrite <- detect_offensive_iff in Hoff. rewrite <- detect_negative_iff in Hn.
  apply auto_or_required_iff in Hc. unfold tool_eligible in He.
  destruct (handle_route st user_input log) as (o & written & -> & Hr).
  route_cases Hr; try route_clash.
  now rewrite app_nil_r.
Qed.

Lemma X7_witness :
  BotAgent.handle (bot default_settings) "Where is my ORDER?" []
  = (inr (reply "Could you please provide your order ID (format like A100) so I can check the status?"),
     []).
Proof.
  apply (X7_prompt_writes_no_log default_settings "Where is my ORDER?" []).
  - intros (w & Hw & Hc). simpl in Hw.
    repeat (destruct Hw as [<-|Hw]; [vm_compute in Hc; discriminate|]). exact Hw.
  - intros k Hk. simpl in Hk.
    repeat (destruct Hk as [<-|Hk]; [reflexivity|]). destruct Hk.
  - reflexivity.
  - left. reflexivity.
  - reflexivity.
  - intros (w & Hw & Hc). simpl in Hw.
    repeat (destruct Hw as [<-|Hw]; [vm_compute in Hc; discriminate|]). exact Hw.
Defined.

(** X8: [handle] hands off with reason [unknown_or_complex] exactly when the
    input holds no offensive word, matches no FAQ key, and either is not
    eligible for the tool while [tool_choice] is not "required", or is
    eligible while [tool_choice] is neither "auto" nor "required"; the call
    then writes the one log line [escalation_reason]. *)
Theorem X8_unknown_or_complex_iff (st : ModelSettings.t) (user_input : string)
    (log : list LogEntry) :
  exists o written,
    BotAgent.handle (bot st) user_input log = (inr o, (log ++ written)%list)
    /\ (reason o = Some "unknown_or_complex"
        <-> (~ has_word OFFENSIVE_WORDS user_input
             /\ matches_no_faq user_input
             /\ ((~ tool_eligible user_input
                  /\ ModelSettings.tool_choice st <> "required")
                 \/ (tool_eligible user_input
                     /\ ModelSettings.tool_choice st <> "auto"
                     /\ ModelSettings.tool_choice st <> "required"))))
    /\ (reason o = Some "unknown_or_complex" ->
        handoff o = true
        /\ written = [entry_escalation_reason "unknown_or_complex" user_input]).
Proof.
  destruct (handle_route st user_input log) as (o & written & Heq & Hr).
  exists o, written. split; [exact Heq|]. split; [split|].
  - intros Hreason. route_cases Hr; try discriminate Hreason.
    unfold passes_guardrail, tool_eligible in *.
    split; [rewrite <- detect_offensive_iff; congruence|]. split; [assumption|].
    destruct (order_tool_enabled_predicate user_input) eqn:He.
    + right. split; [reflexivity|]. apply auto_or_required_false.
      match goal with H : true && _ = false |- _ => exact H end.
    + left. split; [discriminate|]. intros Hc.
      match goal with H : (_ =? "required") && _ = false |- _ =>
        rewrite Hc in H; discriminate H end.
  - intros (Hoff & Hf & Hcase).
    rewrite <- detect_offensive_iff in Hoff. unfold tool_eligible in Hcase.
    assert (Hcase' :
              (order_tool_enabled_predicate user_input = false
               /\ ModelSettings.tool_choice st <> "required")
              \/ (order_tool_enabled_predicate user_input = true
                  /\ BotAgent.auto_or_required (ModelSettings.tool_choice st) = false)).
    { destruct Hcase as [[He Hc]|[He Hc]].
      - left. split; [|exact Hc].
        destruct (order_tool_enabled_predicate user_input); [now contradiction He | reflexivity].
      - right. split; [exact He|]. now apply auto_or_required_false. }
    clear Hcase.
    route_cases Hr; try reflexivity; unfold passes_guardrail in *;
      try faq_contradiction;
      destruct Hcase' as [[He Hc]|[He Hc]]; congruence.
  - intros Hreason. route_cases Hr; try discriminate Hreason. auto.
Qed.

(** X9: the order tool is invoked at most once per call, and only on the
    id extracted from the input: every [tool_invoked] line that [handle]
    writes is the first line of the call, names the id that
    [search_order_id] finds, and that id is one upper-case letter followed
    by two or more digits.  No [tool_invoked] line is written for an input
    that holds an offensive word or matches an FAQ key. *)
Theorem X9_tool_invoked_on_extracted_id (st : ModelSettings.t) (user_input : string)
    (log : list LogEntry) :
  exists o written,
    BotAgent.handle (bot st) user_input log = (inr o, (log ++ written)%list)
    /\ length (filter (fun e => String.eqb (event_type e) "tool_invoked") written) <= 1
    /\ forall e,
         In e written ->
         event_type e = "tool_invoked" ->
         exists order_id rest,
           search_order_id user_input = Some order_id
           /\ order_id_token order_id
           /\ written = entry_tool_invoked user_input order_id :: rest
           /\ e = entry_tool_invoked user_input order_id
           /\ ~ has_word OFFENSIVE_WORDS user_input
           /\ matches_no_faq user_input.
Proof.
  destruct (handle_route st user_input log) as (o & written & Heq & Hr).
  exists o, written. split; [exact Heq|].
  assert (Htok : forall g, search_order_id user_input = Some g -> order_id_token g).
  { intros g Hg. unfold search_order_id in Hg.
    destruct (search_from_sound _ _ _ Hg) as (? & ? & ? & ? & _). assumption. }
  route_cases Hr; (split; [simpl; lia|]); intros e Hin Het; simpl in Hin;
    repeat (destruct Hin as [<-|Hin]; [try discriminate Het|]); try contradiction.
  - exists order_id. eexists. unfold passes_guardrail in *.
    repeat split; auto. rewrite <- detect_offensive_iff. congruence.
  - exists order_id. eexists. unfold passes_guardrail in *.
    repeat split; auto. rewrite <- detect_offensive_iff. congruence.
Qed.

Lemma FAQS_has_no_prompt k : dict_get k FAQS <> Some PROMPT_FOR_ID.
Proof.
  intros H. apply FAQS_answer_inv in H. simpl in H.
  destruct H as [H|[H|[H|[]]]]; discriminate H.
Qed.

(** X10: [handle] can ask for the order id, or hand off for negative
    sentiment, only when the lower-cased input contains "order": in both
    cases the input was eligible for the tool although no order id could be
    extracted from it. *)
Theorem X10_prompt_and_negative_need_order_word (st : ModelSettings.t)
    (user_input : string) (log : list LogEntry) :
  exists o written,
    BotAgent.handle (bot st) user_input log = (inr o, (log ++ written)%list)
    /\ (reason o = Some "negative_sentiment" \/ o = reply PROMPT_FOR_ID ->
        contains "order" (lower user_input) = true
        /\ search_order_id user_input = None).
Proof.
  destruct (handle_route st user_input log) as (o & written & Heq & Hr).
  exists o, written. split; [exact Heq|].
  assert (Hword : order_tool_enabled_predicate user_input = true ->
                  search_order_id user_input = None ->
                  contains "order" (lower user_input) = true).
  { unfold order_tool_enabled_predicate. cbv zeta. intros He Hs.
    rewrite Hs, orb_false_r in He. exact He. }
  intros [Hreason|Ho]; route_cases Hr; try discriminate; auto.
  - exfalso.
    match goal with Hx : reply ?a = reply PROMPT_FOR_ID |- _ =>
      injection Hx as Hx; subst a end.
    match goal with H : dict_get _ FAQS = Some _ |- _ =>
      exact (FAQS_has_no_prompt _ H) end.
  - exfalso.
    match goal with Hx : reply _ = reply PROMPT_FOR_ID |- _ =>
      injection Hx as Hx; unfold order_line in Hx;
      destruct (BotAgent.verified _ _); discriminate Hx end.
Qed.

(** ** The guardrail filter *)

Lemma contains_unfold sub s :
  contains sub s
  = String.prefix sub s
    || match s with
       | EmptyString => false
       | String _ s' => contains sub s'
       end.
Proof. destruct s; reflexivity. Qed.

Lemma prefix_app w s t :
  String.prefix w s = true -> String.prefix w (s ++ t) = true.
Proof.
  revert s. induction w as [|a w IH]; intros s H.
  - now destruct (s ++ t).
  - destruct s as [|b s]; simpl in *; [discriminate|].
    destruct (Ascii.ascii_dec a b); [now apply IH | discriminate].
Qed.

Lemma contains_app_r w s t :
  contains w s = true -> contains w (s ++ t) = true.
Proof.
  induction s as [|b s IH]; intros H; rewrite contains_unfold in H;
    rewrite contains_unfold; apply orb_true_iff in H as [H|H].
  - rewrite (prefix_app _ _ t H). reflexivity.
  - discriminate.
  - rewrite (prefix_app _ _ t H). reflexivity.
  - simpl. rewrite (IH H). apply orb_true_r.
Qed.

Lemma contains_app_l w s t :
  contains w t = true -> contains w (s ++ t) = true.
Proof.
  intros H. induction s as [|b s IH]; simpl; [exact H|].
  rewrite contains_unfold, IH. apply orb_true_r.
Qed.

Lemma contains_embedded w pre s post :
  contains w s = true -> contains w (pre ++ s ++ post) = true.
Proof.
  intros H. apply contains_app_l. now apply contains_app_r.
Qed.

Lemma lower_app a b : lower (a ++ b) = lower a ++ lower b.
Proof.
  induction a as [|x a IH]; simpl; [reflexivity | now rewrite IH].
Qed.

Lemma lower_char_idempotent c : lower_char (lower_char c) = lower_char c.
Proof.
  destruct c as [[] [] [] [] [] [] [] []]; reflexivity.
Qed.

Lemma lower_idempotent s : lower (lower s) = lower s.
Proof.
  induction s as [|x s IH]; simpl; [reflexivity|].
  now rewrite lower_char_idempotent, IH.
Qed.

Lemma has_word_embedded words pre s post :
  has_word words s -> has_word words (pre ++ s ++ post).
Proof.
  intros (w & Hw & Hc). exists w. split; [exact Hw|].
  rewrite !lower_app. now apply contains_embedded.
Qed.

(** X11: the guardrail filter ignores letter case: a text and its
    lower-casing get the same verdict, and so do any two texts that differ
    in letter case only. *)
Theorem X11_verdict_ignores_case :
  (forall text,
     detect_offensive_or_negative (lower text) = detect_offensive_or_negative text)
  /\ (forall text1 text2,
        lower text1 = lower text2 ->
        detect_offensive_or_negative text1 = detect_offensive_or_negative text2).
Proof.
  split.
  - intros text. unfold detect_offensive_or_negative. cbv zeta.
    now rewrite lower_idempotent.
  - intros text1 text2 H. unfold detect_offensive_or_negative. cbv zeta.
    now rewrite H.
Qed.

(** X12: the filter matches substrings, with no word boundary: a flag that
    is set for a text stays set for every text that contains it, whatever
    stands before and after; so an input that contains an offensive text
    is blocked by the guardrail. *)
Theorem X12_verdict_survives_embedding (pre text post : string) :
  (offensive (detect_offensive_or_negative text) = true ->
   offensive (detect_offensive_or_negative (pre ++ text ++ post)) = true
   /\ forall (self : BotAgent.t) (log : list LogEntry),
        BotAgent.handle self (pre ++ text ++ post) log
        = (inr reply_guardrail,
           (log ++ [entry_guardrail (pre ++ text ++ post)])%list))
  /\ (negative (detect_offensive_or_negative text) = true ->
      negative (detect_offensive_or_negative (pre ++ text ++ post)) = true).
Proof.
  split.
  - intros H. apply detect_offensive_iff in H.
    apply (has_word_embedded _ pre _ post) in H. apply detect_offensive_iff in H.
    split; [exact H|]. intros self log.
    unfold BotAgent.handle, guardrail. now rewrite H.
  - intros H. apply detect_negative_iff in H.
    apply (has_word_embedded _ pre _ post) in H. now apply detect_negative_iff.
Qed.

(** ** The order lookup tool *)

(** X14: [get_order_status] never raises and always writes exactly one
    line, [tool_invoked], with the id and the input it was given.  It
    returns an order exactly for the ids A100, B201 and C303, spelled so;
    the order returned carries the id asked for and the record of the
    table.  For any other id it returns the error "Order <id> not found."
    *)
Theorem X14_get_order_status (user_input order_id : string) (log : list LogEntry) :
  exists result,
    wrapper get_order_status user_input order_id log
    = (inr result, (log ++ [entry_tool_invoked user_input order_id])%list)
    /\ ((exists record, result = ResOrder order_id record)
        <-> (order_id = "A100" \/ order_id = "B201" \/ order_id = "C303"))
    /\ (forall id record,
          result = ResOrder id record ->
          id = order_id /\ dict_get order_id SIMULATED_ORDERS = Some record)
    /\ (forall e,
          result = ResError e ->
          err_error e = true
          /\ err_message e = "Order " ++ order_id ++ " not found.").
Proof.
  unfold get_order_status, function_tool, wrapper, FunctionTool.call, FunctionTool.init,
    FunctionTool.func, get_order_status_func, bind, log_event.
  assert (Hkeys : (exists record, dict_get order_id SIMULATED_ORDERS = Some record)
                  <-> (order_id = "A100" \/ order_id = "B201" \/ order_id = "C303")).
  { unfold SIMULATED_ORDERS, dict_get.
    destruct (String.eqb_spec order_id "A100"); [split; eauto|].
    destruct (String.eqb_spec order_id "B201"); [split; eauto|].
    destruct (String.eqb_spec order_id "C303"); [split; eauto|].
    split; [intros [? H]; discriminate H | tauto]. }
  destruct (dict_get order_id SIMULATED_ORDERS) as [record|] eqn:Hget.
  - eexists. split; [reflexivity|]. split; [|split].
    + rewrite <- Hkeys. split; eauto.
    + intros id r H. injection H as <- <-. auto.
    + intros e H. discriminate H.
  - eexists. split; [reflexivity|]. split; [|split].
    + rewrite <- Hkeys. split; [intros [? H]; discriminate H | intros [? H]; discriminate H].
    + intros id r H. discriminate H.
    + intros e H. injection H as <-. auto.
Qed.

(** ** Stripping *)

Lemma lstrip_all_space p s : all_space p = true -> lstrip (p ++ s) = lstrip s.
Proof.
  induction p as [|c p IH]; simpl; intros H; [reflexivity|].
  apply andb_true_iff in H as [Hc Hp]. rewrite Hc. now apply IH.
Qed.

Lemma lstrip_length s : String.length (lstrip s) <= String.length s.
Proof.
  induction s as [|c s IH]; simpl; [lia|].
  destruct (is_space c); simpl; lia.
Qed.

Lemma lstrip_fixed_head c s : lstrip (String c s) = String c s -> is_space c = false.
Proof.
  simpl. destruct (is_space c); [|reflexivity].
  intros H. pose proof (lstrip_length s) as Hl. rewrite H in Hl. simpl in Hl. lia.
Qed.

Lemma lstrip_app_fixed a b :
  a <> EmptyString -> lstrip a = a -> lstrip (a ++ b) = a ++ b.
Proof.
  destruct a as [|c a]; [congruence|]. intros _ H.
  apply lstrip_fixed_head in H. simpl. now rewrite H.
Qed.

Lemma lstrip_suffix s : exists a, s = a ++ lstrip s.
Proof.
  induction s as [|c s [a IH]]; simpl.
  - now exists EmptyString.
  - destruct (is_space c).
    + exists (String c a). simpl. now rewrite <- IH.
    + now exists EmptyString.
Qed.

Lemma rstrip_app a b :
  rstrip (a ++ b) = if nonempty (rstrip b) then a ++ rstrip b else rstrip a.
Proof.
  induction a as [|c a IH]; simpl.
  - now destruct (rstrip b).
  - rewrite IH. destruct (rstrip b) as [|x r]; simpl; [reflexivity|].
    now destruct a.
Qed.

Lemma rstrip_all_space p : all_space p = true -> rstrip p = EmptyString.
Proof.
  induction p as [|c p IH]; simpl; intros H; [reflexivity|].
  apply andb_true_iff in H as [Hc Hp]. now rewrite (IH Hp), Hc.
Qed.

Lemma rstrip_prefix s : exists b, s = rstrip s ++ b.
Proof.
  induction s as [|c s [b IH]]; simpl.
  - now exists EmptyString.
  - destruct (rstrip s) as [|x r] eqn:E.
    + destruct (is_space c).
      * exists (String c s). reflexivity.
      * exists b. simpl in IH. now rewrite <- IH.
    + exists b. simpl. simpl in IH. now rewrite <- IH.
Qed.

Lemma strip_inside s : exists a b, s = a ++ strip s ++ b.
Proof.
  destruct (lstrip_suffix s) as [a Ha].
  destruct (rstrip_prefix (lstrip s)) as [b Hb].
  exists a, b. unfold strip. now rewrite <- Hb.
Qed.

Lemma strip_all_space p : all_space p = true -> strip p = EmptyString.
Proof.
  intros H. unfold strip.
  rewrite <- (str_app_nil_r p), (lstrip_all_space p EmptyString H). reflexivity.
Qed.

Lemma strip_padded p a q :
  all_space p = true -> all_space q = true -> trimmed a -> strip (p ++ a ++ q) = a.
Proof.
  intros Hp Hq [Hl Hr]. unfold strip. rewrite (lstrip_all_space _ _ Hp).
  destruct a as [|c a].
  - simpl. rewrite <- (str_app_nil_r q), (lstrip_all_space q EmptyString Hq). reflexivity.
  - rewrite (lstrip_app_fixed (String c a) q) by (congruence || assumption).
    rewrite rstrip_app, (rstrip_all_space _ Hq). exact Hr.
Qed.

(** ** The [.env] loader *)

Lemma dict_get_cons {V : Type} k k' (v : V) d :
  dict_get k ((k', v) :: d) = if String.eqb k k' then Some v else dict_get k d.
Proof. reflexivity. Qed.

Lemma dict_get_app {V : Type} k (a b : dict V) :
  dict_get k (a ++ b)%list
  = match dict_get k a with Some v => Some v | None => dict_get k b end.
Proof.
  induction a as [|[k' v] a IH]; [reflexivity|].
  simpl app. rewrite !dict_get_cons. now destruct (String.eqb k k').
Qed.

Lemma environ_setdefault_keeps putenv_ok key default environ k v :
  dict_get k environ = Some v ->
  dict_get k (snd (environ_setdefault putenv_ok key default environ)) = Some v.
Proof.
  intros H. unfold environ_setdefault.
  destruct (dict_get key environ); [exact H|].
  destruct (putenv_ok key default); [|exact H].
  simpl. now rewrite dict_get_app, H.
Qed.

Lemma load_dotenv_lines_keeps putenv_ok lines :
  forall environ k v,
    dict_get k environ = Some v ->
    dict_get k (snd (load_dotenv_lines putenv_ok lines environ)) = Some v.
Proof.
  induction lines as [|line rest IH]; intros environ k v H; [exact H|].
  cbn [load_dotenv_lines]. cbv zeta.
  destruct (negb (nonempty (strip line)) || String.prefix "#" (strip line));
    [now apply IH|].
  destruct (contains "=" (strip line)); [|now apply IH].
  destruct (split_once "=" (strip line)) as [k0 [v0|]]; [|exact H].
  pose proof (environ_setdefault_keeps putenv_ok (strip k0) (strip v0) environ k v H) as Hk.
  destruct (environ_setdefault putenv_ok (strip k0) (strip v0) environ) as [[e|r] environ'];
    simpl in Hk; [exact Hk | now apply IH].
Qed.

(** X15: [load_dotenv_file] never changes a variable that is already set:
    whatever the file holds, and whether or not the load ends with an
    exception, every name of the environment keeps its value.  When the
    path does not exist the environment is left as it is. *)
Theorem X15_dotenv_never_overwrites (putenv_ok : string -> string -> bool)
    (file : option (list string)) (environ : dict string) (k v : string) :
  dict_get k environ = Some v ->
  dict_get k (snd (load_dotenv_file putenv_ok file environ)) = Some v
  /\ load_dotenv_file putenv_ok None environ = (None, environ).
Proof.
  intros H. split; [|reflexivity].
  destruct file as [lines|]; [now apply load_dotenv_lines_keeps | exact H].
Qed.

Lemma X15_witness :
  dict_get "MODE"
    (snd (load_dotenv_file (fun _ _ => true)
            (Some ["MODE=online"; "CUSTOMER_ID=12345"]) [("MODE", "offline")]))
  = Some "offline"
  /\ load_dotenv_file (fun _ _ => true) None [("MODE", "offline")]
     = (None, [("MODE", "offline")]).
Proof.
  apply (X15_dotenv_never_overwrites (fun _ _ => true)
           (Some ["MODE=online"; "CUSTOMER_ID=12345"]) [("MODE", "offline")]
           "MODE" "offline").
  reflexivity.
Defined.

Lemma prefix_eq_char c s : String.prefix "=" (String c s) = Ascii.eqb "=" c.
Proof.
  change (String.prefix "=" (String c s))
    with (match Ascii.ascii_dec "=" c with
          | left _ => String.prefix EmptyString s
          | right _ => false
          end).
  destruct (Ascii.ascii_dec "=" c) as [Heq|Hne].
  - rewrite <- Heq. now destruct s.
  - symmetry. now apply Ascii.eqb_neq.
Qed.

Lemma contains_eq_cons c s :
  contains "=" (String c s) = Ascii.eqb "=" c || contains "=" s.
Proof.
  rewrite contains_unfold. now rewrite prefix_eq_char.
Qed.

Lemma contains_eq_app a b :
  contains "=" (a ++ b) = contains "=" a || contains "=" b.
Proof.
  induction a as [|c a IH]; [reflexivity|].
  simpl String.append. rewrite !contains_eq_cons, IH. now rewrite orb_assoc.
Qed.

Lemma all_space_no_eq p : all_space p = true -> contains "=" p = false.
Proof.
  induction p as [|c p IH]; [reflexivity|]. simpl. intros H.
  apply andb_true_iff in H as [Hc Hp]. rewrite contains_eq_cons, (IH Hp), orb_false_r.
  apply Ascii.eqb_neq. intros <-. discriminate Hc.
Qed.

Lemma split_once_at_first a b :
  contains "=" a = false ->
  split_once "=" (a ++ String "=" b) = (a, Some b).
Proof.
  induction a as [|c a IH]; intros H; [reflexivity|].
  rewrite contains_eq_cons in H. apply orb_false_iff in H as [Hc Ha].
  simpl. rewrite Ascii.eqb_sym, Hc. now rewrite (IH Ha).
Qed.

Lemma prefix_char x c s :
  String.prefix (String x EmptyString) (String c s) = Ascii.eqb x c.
Proof.
  change (String.prefix (String x EmptyString) (String c s))
    with (match Ascii.ascii_dec x c with
          | left _ => String.prefix EmptyString s
          | right _ => false
          end).
  destruct (Ascii.ascii_dec x c) as [Heq|Hne].
  - rewrite <- Heq, Ascii.eqb_refl. now destruct s.
  - symmetry. now apply Ascii.eqb_neq.
Qed.

Lemma strip_assignment_line pad1 k pad2 pad3 v pad4 :
  all_space pad1 = true -> all_space pad2 = true ->
  all_space pad3 = true -> all_space pad4 = true ->
  trimmed k -> trimmed v -> k <> EmptyString ->
  strip (assignment_line pad1 k pad2 pad3 v pad4)
  = (k ++ pad2) ++ String "=" (if nonempty v then pad3 ++ v else EmptyString).
Proof.
  intros H1 H2 H3 H4 [Hkl Hkr] [Hvl Hvr] Hk.
  unfold strip, assignment_line.
  rewrite (lstrip_all_space _ _ H1), (lstrip_app_fixed _ _ Hk Hkl).
  assert (Hv4 : rstrip (v ++ pad4) = v).
  { now rewrite rstrip_app, (rstrip_all_space _ H4). }
  assert (Hx : rstrip (pad3 ++ v ++ pad4)
               = if nonempty v then pad3 ++ v else EmptyString).
  { rewrite rstrip_app, Hv4, (rstrip_all_space _ H3). reflexivity. }
  assert (He : rstrip ("=" ++ pad3 ++ v ++ pad4)
               = String "=" (if nonempty v then pad3 ++ v else EmptyString)).
  { rewrite (rstrip_app "=" (pad3 ++ v ++ pad4)), Hx.
    destruct (nonempty v) eqn:Hn.
    - destruct v; [discriminate Hn|]. now destruct pad3.
    - reflexivity. }
  rewrite rstrip_app, rstrip_app, He. cbn [nonempty].
  assert (Hn : forall a c b, nonempty (a ++ String c b) = true) by (now intros [|? ?]).
  now rewrite Hn, str_app_assoc.
Qed.

(** X16: a line [K=V] of the file, with blanks allowed around the name,
    around the value and at both ends of the line, offers exactly the name
    [K] and the value [V] to [os.environ.setdefault], and the loader goes on
    with the next line.  The value may be empty and may itself contain "=":
    the line is split at its first "=" only.  Loaded into an environment
    where [K] is not set and that accepts it, the line sets [K] to [V]. *)
Theorem X16_dotenv_assignment (putenv_ok : string -> string -> bool)
    (pad1 k pad2 pad3 v pad4 : string) (rest : list string) (environ : dict string) :
  all_space pad1 = true -> all_space pad2 = true ->
  all_space pad3 = true -> all_space pad4 = true ->
  trimmed k -> trimmed v ->
  k <> EmptyString ->
  String.prefix "#" k = false ->
  contains "=" k = false ->
  load_dotenv_lines putenv_ok (assignment_line pad1 k pad2 pad3 v pad4 :: rest) environ
  = match environ_setdefault putenv_ok k v environ with
    | (inr _, environ') => load_dotenv_lines putenv_ok rest environ'
    | (inl e, environ') => (Some e, environ')
    end
  /\ (dict_get k environ = None ->
      putenv_ok k v = true ->
      load_dotenv_file putenv_ok (Some [assignment_line pad1 k pad2 pad3 v pad4]) environ
      = (None, (environ ++ [(k, v)])%list)
      /\ dict_get k (environ ++ [(k, v)])%list = Some v).
Proof.
  intros H1 H2 H3 H4 Hkt Hvt Hk Hhash Heq.
  assert (Hline :
            forall tail,
              load_dotenv_lines putenv_ok
                (assignment_line pad1 k pad2 pad3 v pad4 :: tail) environ
              = match environ_setdefault putenv_ok k v environ with
                | (inr _, environ') => load_dotenv_lines putenv_ok tail environ'
                | (inl e, environ') => (Some e, environ')
                end).
  { intros tail. cbn [load_dotenv_lines]. cbv zeta.
    rewrite (strip_assignment_line _ _ _ _ _ _ H1 H2 H3 H4 Hkt Hvt Hk).
    destruct k as [|c k']; [congruence|].
    assert (Hne : nonempty ((String c k' ++ pad2)
                            ++ String "=" (if nonempty v then pad3 ++ v else EmptyString))
                  = true) by reflexivity.
    assert (Hnh : String.prefix "#"
                    ((String c k' ++ pad2)
                     ++ String "=" (if nonempty v then pad3 ++ v else EmptyString))
                  = false).
    { simpl String.append. rewrite prefix_char. now rewrite prefix_char in Hhash. }
    rewrite Hne, Hnh. cbn [negb orb].
    assert (Hc : contains "="
                   ((String c k' ++ pad2)
                    ++ String "=" (if nonempty v then pad3 ++ v else EmptyString))
                 = true).
    { rewrite contains_eq_app, contains_eq_cons, Ascii.eqb_refl. apply orb_true_r. }
    rewrite Hc.
    rewrite split_once_at_first
      by (rewrite contains_eq_app, Heq, (all_space_no_eq _ H2); reflexivity).
    assert (Hsk : strip (String c k' ++ pad2) = String c k').
    { exact (strip_padded EmptyString (String c k') pad2 eq_refl H2 Hkt). }
    assert (Hsv : strip (if nonempty v then pad3 ++ v else EmptyString) = v).
    { destruct (nonempty v) eqn:Hn.
      - rewrite <- (str_app_nil_r v) at 1.
        exact (strip_padded pad3 v EmptyString H3 eq_refl Hvt).
      - now destruct v. }
    now rewrite Hsk, Hsv. }
  split; [apply Hline|].
  intros Hunset Hok. split.
  - unfold load_dotenv_file. rewrite Hline. unfold environ_setdefault.
    now rewrite Hunset, Hok.
  - rewrite dict_get_app, Hunset, dict_get_cons. now rewrite String.eqb_refl.
Qed.

Lemma X16_witness :
  load_dotenv_lines (fun k _ => nonempty k)
    (assignment_line " " "API_URL" " " "  " "http://h/?a=b" NL :: ["MODE=online"])
    [("MODE", "offline")]
  = match environ_setdefault (fun k _ => nonempty k) "API_URL" "http://h/?a=b"
            [("MODE", "offline")] with
    | (inr _, environ') =>
        load_dotenv_lines (fun k _ => nonempty k) ["MODE=online"] environ'
    | (inl e, environ') => (Some e, environ')
    end
  /\ (dict_get "API_URL" [("MODE", "offline")] = None ->
      (fun k _ => nonempty k) "API_URL" "http://h/?a=b" = true ->
      load_dotenv_file (fun k _ => nonempty k)
        (Some [assignment_line " " "API_URL" " " "  " "http://h/?a=b" NL])
        [("MODE", "offline")]
      = (None, ([("MODE", "offline")] ++ [("API_URL", "http://h/?a=b")])%list)
      /\ dict_get "API_URL" ([("MODE", "offline")] ++ [("API_URL", "http://h/?a=b")])%list
         = Some "http://h/?a=b").
Proof.
  apply (X16_dotenv_assignment (fun k _ => nonempty k)
           " " "API_URL" " " "  " "http://h/?a=b" NL ["MODE=online"]
           [("MODE", "offline")]);
    try reflexivity.
  - split; reflexivity.
  - split; reflexivity.
  - discriminate.
Defined.

Lemma ignorable_line_skipped line :
  ignorable_line line ->
  negb (nonempty (strip line)) || String.prefix "#" (strip line) = true
  \/ contains "=" (strip line) = false.
Proof.
  intros [Hblank|[(ws & rest & -> & Hws)|Hnoeq]].
  - left. now rewrite (strip_all_space _ Hblank).
  - left. unfold strip. rewrite (lstrip_all_space _ _ Hws).
    change ("#" ++ rest) with (String "#" rest).
    assert (Hl : lstrip (String "#" rest) = String "#" rest) by reflexivity.
    rewrite Hl. cbn [rstrip].
    destruct (rstrip rest); [change (is_space "#") with false|];
      cbn [nonempty negb orb]; now rewrite prefix_char.
  - right. destruct (strip_inside line) as (a & b & Hs).
    rewrite Hs, !contains_eq_app in Hnoeq.
    apply orb_false_iff in Hnoeq as [_ Hnoeq].
    now apply orb_false_iff in Hnoeq as [Hnoeq _].
Qed.

(** X17: blank lines, comment lines (a "#" after optional blanks, whatever
    follows it, an "=" included) and lines with no "=" are passed over: a
    file made of such lines only leaves the environment as it was and
    raises nothing, and such lines in front of a file change nothing to
    the loading of the rest. *)
Theorem X17_dotenv_ignores_comments_and_blanks (putenv_ok : string -> string -> bool)
    (skipped rest : list string) (environ : dict string) :
  Forall ignorable_line skipped ->
  load_dotenv_file putenv_ok (Some skipped) environ = (None, environ)
  /\ load_dotenv_file putenv_ok (Some (skipped ++ rest)%list) environ
     = load_dotenv_file putenv_ok (Some rest) environ.
Proof.
  intros H.
  assert (Hgen : forall tail,
             load_dotenv_lines putenv_ok (skipped ++ tail)%list environ
             = load_dotenv_lines putenv_ok tail environ).
  { intros tail. induction H as [|line skipped Hline _ IH]; [reflexivity|].
    simpl app. cbn [load_dotenv_lines]. cbv zeta.
    destruct (ignorable_line_skipped _ Hline) as [Hs|Hs]; rewrite Hs.
    - exact IH.
    - destruct (negb (nonempty (strip line)) || String.prefix "#" (strip line)); exact IH. }
  split.
  - unfold load_dotenv_file. rewrite <- (app_nil_r skipped). now rewrite Hgen.
  - unfold load_dotenv_file. apply Hgen.
Qed.

Lemma X17_witness :
  load_dotenv_file (fun _ _ => true)
    (Some ["   "; "  # MODE=online"; "export"; NL]) [("MODE", "offline")]
  = (None, [("MODE", "offline")])
  /\ load_dotenv_file (fun _ _ => true)
       (Some (["   "; "  # MODE=online"; "export"; NL] ++ ["CUSTOMER_ID=12345"])%list)
       [("MODE", "offline")]
     = load_dotenv_file (fun _ _ => true) (Some ["CUSTOMER_ID=12345"]) [("MODE", "offline")].
Proof.
  apply (X17_dotenv_ignores_comments_and_blanks (fun _ _ => true)
           ["   "; "  # MODE=online"; "export"; NL] ["CUSTOMER_ID=12345"]
           [("MODE", "offline")]).
  apply Forall_cons; [left; reflexivity|].
  apply Forall_cons;
    [right; left; exists "  ", " MODE=online"; split; reflexivity|].
  apply Forall_cons; [right; right; reflexivity|].
  apply Forall_cons; [left; reflexivity|].
  apply Forall_nil.
Defined.

(** ** The configuration *)

(** X18: the settings of a command-line session verify a customer exactly
    when the environment sets CUSTOMER_ID to a value that, stripped of the
    blanks around it, is not empty and equals the record's customer id.
    With CUSTOMER_ID unset or blank the metadata's customer_id is [None]
    and no customer is verified.  The session's [tool_choice] is "auto". *)
Theorem X18_cli_customer_id (environ : dict string) :
  (forall cid,
     metadata_customer_is (ModelSettings.metadata (cli_settings (load_config environ))) cid
     <-> (cid <> EmptyString /\ strip (getenv environ "CUSTOMER_ID" EmptyString) = cid))
  /\ (strip (getenv environ "CUSTOMER_ID" EmptyString) = EmptyString ->
      ModelSettings.metadata (cli_settings (load_config environ))
      = [("customer_id", PNone)])
  /\ ModelSettings.tool_choice (cli_settings (load_config environ)) = "auto".
Proof.
  unfold cli_settings, load_config, ModelSettings.init, ModelSettings.metadata,
    ModelSettings.tool_choice, metadata_customer_is.
  change (dict_get "CUSTOMER_ID" _)
    with (Some (strip (getenv environ "CUSTOMER_ID" EmptyString))).
  set (raw := strip (getenv environ "CUSTOMER_ID" EmptyString)).
  split; [|split; [|reflexivity]].
  - intros cid. unfold or_none. rewrite dict_get_cons. cbn [String.eqb Ascii.eqb Bool.eqb].
    split.
    + intros (s & Hs & Hne & <-). destruct (nonempty raw); [|discriminate Hs].
      injection Hs as <-. auto.
    + intros [Hne <-]. exists raw. destruct raw; [congruence|]. auto.
  - intros ->. reflexivity.
Qed.

(** ** The command-line loop *)

Lemma route_handled_or_handoff st user_input o written :
  route st user_input o written ->
  (handled o = true /\ handoff o = false)
  \/ (handled o = false /\ handoff o = true /\ exists r, reason o = Some r).
Proof.
  intros H. route_cases H; try (left; split; reflexivity);
    right; repeat split; eexists; reflexivity.
Qed.

Lemma route_message_head st user_input o written :
  route st user_input o written ->
  exists c m, message o = String c m /\ c <> "S"%char.
Proof.
  intros H. route_cases H;
    try (do 2 eexists; split; [reflexivity | discriminate]).
  - match goal with H : dict_get _ FAQS = Some _ |- _ =>
      apply FAQS_answer_inv in H; simpl in H;
      destruct H as [H|[H|[H|[]]]]; injection H as _ <- end;
      do 2 eexists; (split; [reflexivity | discriminate]).
  - cbn [message reply]. destruct (BotAgent.verified _ _);
      do 2 eexists; (split; [reflexivity | discriminate]).
Qed.

Lemma cli_loop_turn EM_DASH repr_dict st line rest log out :
  nonempty (strip line) = true ->
  is_exit (strip line) = false ->
  exists o written,
    BotAgent.handle (bot st) (strip line) log = (inr o, (log ++ written)%list)
    /\ route st (strip line) o written
    /\ ((handled o = true
         /\ cli_loop EM_DASH repr_dict (bot st) st (line :: rest) log out
            = cli_loop EM_DASH repr_dict (bot st) st rest (log ++ written)%list
                (out ++ [PROMPT_YOU; printed ("Bot: " ++ message o)])%list)
        \/ (exists r,
              handled o = false /\ handoff o = true /\ reason o = Some r
              /\ cli_loop EM_DASH repr_dict (bot st) st (line :: rest) log out
                 = cli_loop EM_DASH repr_dict (bot st) st rest
                     (log ++ written
                      ++ [entry_handoff_initiated st (strip line) r;
                          entry_human_received st (strip line) r])%list
                     (out ++ [PROMPT_YOU;
                              printed (human_text EM_DASH (strip line) r)])%list)).
Proof.
  intros Hne Hexit.
  destruct (handle_route st (strip line) log) as (o & written & Heq & Hr).
  exists o, written. split; [exact Heq|]. split; [exact Hr|].
  cbn [cli_loop]. cbv zeta. rewrite Hne, Hexit, Heq. cbn [negb].
  destruct (route_handled_or_handoff _ _ _ _ Hr) as [[Hh Hf]|(Hh & Hf & r & Hreason)].
  - left. split; [exact Hh|]. rewrite Hh. now rewrite <- app_assoc.
  - right. exists r. repeat split; auto.
    rewrite Hh, Hf, Hreason.
    unfold bind, log_event, human_handle, bind, log_event, ret.
    cbn [message reply context_get dict_get py_str].
    rewrite <- !app_assoc. reflexivity.
Qed.

(** X19: one turn of the command-line loop.  A line that is neither blank
    nor "exit"/"quit" is stripped and given to the bot; the loop then
    writes the prompt and exactly one reply.  When the bot's reply is
    handled, the reply is "Bot: " followed by its message and the log holds
    what the bot wrote.  Otherwise the reply is a handoff, and the loop
    logs [handoff_initiated], calls the human agent, which logs
    [human_agent_received], and writes the human agent's text, which quotes
    the stripped line and the bot's reason.  The loop then goes on with the
    next line. *)
Theorem X19_cli_turn (EM_DASH : string) (repr_dict : dict pyval -> string)
    (st : ModelSettings.t) (line : string) (rest : list string)
    (log : list LogEntry) (out : list string) :
  nonempty (strip line) = true ->
  is_exit (strip line) = false ->
  exists o written,
    BotAgent.handle (bot st) (strip line) log = (inr o, (log ++ written)%list)
    /\ ((handled o = true
         /\ cli_loop EM_DASH repr_dict (bot st) st (line :: rest) log out
            = cli_loop EM_DASH repr_dict (bot st) st rest (log ++ written)%list
                (out ++ [PROMPT_YOU; printed ("Bot: " ++ message o)])%list)
        \/ (exists r,
              handled o = false /\ handoff o = true /\ reason o = Some r
              /\ cli_loop EM_DASH repr_dict (bot st) st (line :: rest) log out
                 = cli_loop EM_DASH repr_dict (bot st) st rest
                     (log ++ written
                      ++ [entry_handoff_initiated st (strip line) r;
                          entry_human_received st (strip line) r])%list
                     (out ++ [PROMPT_YOU;
                              printed (human_text EM_DASH (strip line) r)])%list)).
Proof.
  intros Hne Hexit.
  destruct (cli_loop_turn EM_DASH repr_dict st line rest log out Hne Hexit)
    as (o & written & Heq & _ & H).
  exists o, written. auto.
Qed.

Lemma X19_witness :
  exists o written,
    BotAgent.handle (bot default_settings) (strip "  tell me a joke ") []
    = (inr o, ([] ++ written)%list)
    /\ ((handled o = true
         /\ cli_loop "--" (fun _ => "{}") (bot default_settings) default_settings
              ("  tell me a joke " :: ["quit"]) [] []
            = cli_loop "--" (fun _ => "{}") (bot default_settings) default_settings
                ["quit"] ([] ++ written)%list
                ([] ++ [PROMPT_YOU; printed ("Bot: " ++ message o)])%list)
        \/ (exists r,
              handled o = false /\ handoff o = true /\ reason o = Some r
              /\ cli_loop "--" (fun _ => "{}") (bot default_settings) default_settings
                   ("  tell me a joke " :: ["quit"]) [] []
                 = cli_loop "--" (fun _ => "{}") (bot default_settings) default_settings
                     ["quit"]
                     ([] ++ written
                      ++ [entry_handoff_initiated default_settings
                            (strip "  tell me a joke ") r;
                          entry_human_received default_settings
                            (strip "  tell me a joke ") r])%list
                     ([] ++ [PROMPT_YOU;
                             printed (human_text "--" (strip "  tell me a joke ") r)])%list)).
Proof.
  apply (X19_cli_turn "--" (fun _ => "{}") default_settings "  tell me a joke " ["quit"] [] []).
  - reflexivity.
  - reflexivity.
Defined.

Lemma is_exit_nonempty user : is_exit user = true -> nonempty user = true.
Proof.
  destruct user; [discriminate | reflexivity].
Qed.

Lemma printed_bot_not_sorry c m :
  c <> "S"%char -> printed ("Bot: " ++ String c m) <> SORRY_LINE.
Proof.
  intros Hc H. apply (f_equal (String.get 5)) in H. simpl in H.
  injection H as H. now apply Hc.
Qed.

Lemma not_in_app_singletons (x : string) (out : list string) (a b : string) :
  ~ In x out -> a <> x -> b <> x -> ~ In x (out ++ [a; b])%list.
Proof.
  intros Hout Ha Hb Hin. apply in_app_or in Hin as [Hin|[Hin|[Hin|[]]]]; auto.
Qed.

Lemma prompt_not_sorry : PROMPT_YOU <> SORRY_LINE.
Proof. discriminate. Qed.

Lemma human_text_not_sorry EM_DASH user r :
  printed (human_text EM_DASH user r) <> SORRY_LINE.
Proof. unfold printed, human_text, SORRY_LINE. simpl. discriminate. Qed.

Lemma cli_loop_session EM_DASH repr_dict st stdin :
  forall log out,
    ~ In SORRY_LINE out ->
    exists written out',
      cli_loop EM_DASH repr_dict (bot st) st stdin log out
      = (None, (log ++ written)%list, (out ++ out')%list)
      /\ ~ In SORRY_LINE (out ++ out')%list
      /\ ends_with_goodbye out'.
Proof.
  induction stdin as [|line rest IH]; intros log out Hout.
  - exists [], [PROMPT_YOU; printed (NL ++ "Goodbye.")]. split; [|split].
    + cbn [cli_loop]. now rewrite app_nil_r, <- app_assoc.
    + apply not_in_app_singletons; [exact Hout | exact prompt_not_sorry | discriminate].
    + exists [PROMPT_YOU]. now right.
  - destruct (nonempty (strip line)) eqn:Hne.
    2:{ assert (Hp : ~ In SORRY_LINE (out ++ [PROMPT_YOU])%list).
        { intros Hin. apply in_app_or in Hin as [Hin|[Hin|[]]]; auto.
          exact (prompt_not_sorry Hin). }
        destruct (IH log _ Hp) as (written & out' & Heq & Hno & front & Hend).
        exists written, (PROMPT_YOU :: out'). split; [|split].
        - cbn [cli_loop]. cbv zeta. rewrite Hne. cbn [negb].
          change (NL ++ "You: ") with PROMPT_YOU. rewrite Heq.
          now rewrite <- app_assoc.
        - now rewrite <- app_assoc in Hno.
        - exists (PROMPT_YOU :: front). destruct Hend as [-> | ->]; [left | right]; reflexivity. }
    destruct (is_exit (strip line)) eqn:Hexit.
    { exists [], [PROMPT_YOU; printed "Goodbye."]. split; [|split].
      - cbn [cli_loop]. cbv zeta. rewrite Hne, Hexit. cbn [negb].
        now rewrite app_nil_r, <- app_assoc.
      - apply not_in_app_singletons; [exact Hout | exact prompt_not_sorry | discriminate].
      - exists [PROMPT_YOU]. now left. }
    destruct (cli_loop_turn EM_DASH repr_dict st line rest log out Hne Hexit)
      as (o & w & _ & Hr & [[Hh Heq]|(r & Hh & Hf & Hreason & Heq)]).
    + destruct (route_message_head _ _ _ _ Hr) as (c & m & Hm & Hc).
      assert (Hp : ~ In SORRY_LINE
                     (out ++ [PROMPT_YOU; printed ("Bot: " ++ message o)])%list).
      { apply not_in_app_singletons; [exact Hout | exact prompt_not_sorry|].
        rewrite Hm. now apply printed_bot_not_sorry. }
      destruct (IH (log ++ w)%list _ Hp) as (written & out' & Heq' & Hno & front & Hend).
      exists (w ++ written)%list, ([PROMPT_YOU; printed ("Bot: " ++ message o)] ++ out')%list.
      split; [|split].
      * rewrite Heq, Heq'. now rewrite !app_assoc.
      * now rewrite app_assoc.
      * exists ([PROMPT_YOU; printed ("Bot: " ++ message o)] ++ front)%list.
        destruct Hend as [-> | ->]; [left | right]; now rewrite app_assoc.
    + assert (Hp : ~ In SORRY_LINE
                     (out ++ [PROMPT_YOU; printed (human_text EM_DASH (strip line) r)])%list).
      { apply not_in_app_singletons;
          [exact Hout | exact prompt_not_sorry | apply human_text_not_sorry]. }
      destruct (IH (log ++ w ++ [entry_handoff_initiated st (strip line) r;
                                 entry_human_received st (strip line) r])%list _ Hp)
        as (written & out' & Heq' & Hno & front & Hend).
      exists (w ++ [entry_handoff_initiated st (strip line) r;
                    entry_human_received st (strip line) r] ++ written)%list,
        ([PROMPT_YOU; printed (human_text EM_DASH (strip line) r)] ++ out')%list.
      split; [|split].
      * rewrite Heq, Heq'. now rewrite !app_assoc.
      * now rewrite app_assoc.
      * exists ([PROMPT_YOU; printed (human_text EM_DASH (strip line) r)] ++ front)%list.
        destruct Hend as [-> | ->]; [left | right]; now rewrite app_assoc.
Qed.

(** X20: a session of [run_cli] on a finite standard input.  It raises
    nothing and comes to an end; it starts with the banner, the mode line
    and the usage line; the log it leaves is the log it found with lines
    appended; the last text written is a farewell, "Goodbye." after
    "exit"/"quit" or after a line feed at the end of the input; and the
    line "Bot: Sorry, I couldn't help with that." is never written, since
    every reply of the bot is either handled or a handoff. *)
Theorem X20_cli_session (EM_DASH : string) (repr_dict : dict pyval -> string)
    (CONFIG : dict string) (stdin : list string) (log : list LogEntry) :
  exists written mode out',
    run_cli EM_DASH repr_dict CONFIG stdin log
    = (None, (log ++ written)%list,
       ([ printed "=== Smart Customer Support Bot (CLI demo) ===";
          printed ("Mode: " ++ mode);
          printed "Type 'exit' to quit. Examples: 'what is your return policy', 'check order A100', 'my order B201', etc." ]
        ++ out')%list)
    /\ (forall m, dict_get "MODE" CONFIG = Some m -> mode = m)
    /\ (dict_get "MODE" CONFIG = None -> mode = "None")
    /\ ends_with_goodbye out'
    /\ ~ In SORRY_LINE
           ([ printed "=== Smart Customer Support Bot (CLI demo) ===";
              printed ("Mode: " ++ mode);
              printed "Type 'exit' to quit. Examples: 'what is your return policy', 'check order A100', 'my order B201', etc." ]
            ++ out')%list.
Proof.
  unfold run_cli. cbv zeta.
  set (mode := py_str repr_dict
                 (match dict_get "MODE" CONFIG with Some m => PStr m | None => PNone end)).
  set (banner := ([printed "=== Smart Customer Support Bot (CLI demo) ===";
                   printed ("Mode: " ++ mode)]
                  ++ [printed "Type 'exit' to quit. Examples: 'what is your return policy', 'check order A100', 'my order B201', etc."])%list).
  assert (Hb : ~ In SORRY_LINE banner).
  { unfold banner. simpl. intros [H|[H|[H|[]]]]; discriminate H. }
  change (BotAgent.init None (Some (cli_settings CONFIG))) with (bot (cli_settings CONFIG)).
  destruct (cli_loop_session EM_DASH repr_dict (cli_settings CONFIG) stdin log banner Hb)
    as (written & out' & Heq & Hno & Hend).
  exists written, mode, out'. split; [exact Heq|].
  split; [|split; [|split]].
  - intros m Hm. unfold mode. now rewrite Hm.
  - intros Hm. unfold mode. now rewrite Hm.
  - exact Hend.
  - exact Hno.
Qed.

(** X21: "exit" and "quit", in any letter case and with blanks around them,
    end the session: the loop writes the prompt and "Goodbye.", leaves the
    log as it is, and reads nothing more, so the lines after such a line
    change neither the log nor the output.  This holds for any agent. *)
Theorem X21_cli_exit_stops (EM_DASH : string) (repr_dict : dict pyval -> string)
    (bot_agent : BotAgent.t) (st : ModelSettings.t)
    (before : list string) (line : string) (after : list string)
    (log : list LogEntry) (out : list string) :
  is_exit (strip line) = true ->
  cli_loop EM_DASH repr_dict bot_agent st (line :: after) log out
  = (None, log, (out ++ [PROMPT_YOU; printed "Goodbye."])%list)
  /\ cli_loop EM_DASH repr_dict bot_agent st (before ++ line :: after)%list log out
     = cli_loop EM_DASH repr_dict bot_agent st (before ++ [line])%list log out.
Proof.
  intros Hexit.
  assert (Hstop : forall tail l o,
             cli_loop EM_DASH repr_dict bot_agent st (line :: tail) l o
             = (None, l, (o ++ [PROMPT_YOU; printed "Goodbye."])%list)).
  { intros tail l o. cbn [cli_loop]. cbv zeta.
    rewrite (is_exit_nonempty _ Hexit), Hexit. cbn [negb].
    now rewrite <- app_assoc. }
  split; [apply Hstop|].
  revert log out. induction before as [|b before IH]; intros log out.
  - simpl app. now rewrite !Hstop.
  - simpl app. cbn [cli_loop]. cbv zeta.
    destruct (negb (nonempty (strip b))); [apply IH|].
    destruct (is_exit (strip b)); [reflexivity|].
    destruct (BotAgent.handle bot_agent (strip b) log) as [[e|response] log']; [reflexivity|].
    destruct (handled response); [apply IH|].
    destruct (handoff response); [|apply IH].
    match goal with
    | |- context [bind ?a ?b log'] => destruct (bind a b log') as [[e|human_reply] log'']
    end; [reflexivity | apply IH].
Qed.

Lemma X21_witness :
  cli_loop "--" (fun _ => "{}") (bot default_settings) default_settings
    ("  QuIt " :: ["check order A100"]) [] []
  = (None, [], ([] ++ [PROMPT_YOU; printed "Goodbye."])%list)
  /\ cli_loop "--" (fun _ => "{}") (bot default_settings) default_settings
       (["tell me a joke"] ++ "  QuIt " :: ["check order A100"])%list [] []
     = cli_loop "--" (fun _ => "{}") (bot default_settings) default_settings
         (["tell me a joke"] ++ ["  QuIt "])%list [] [].
Proof.
  apply (X21_cli_exit_stops "--" (fun _ => "{}") (bot default_settings) default_settings
           ["tell me a joke"] "  QuIt " ["check order A100"] [] []).
  reflexivity.
Defined.

(** X22: blank lines are never given to the agent.  A line made of blanks
    only costs a prompt and nothing else, and a session leaves the same
    log, and ends with the same exception if any, as the session on the
    input without its blank lines.  This holds for any agent. *)
Theorem X22_cli_skips_blank_lines (EM_DASH : string) (repr_dict : dict pyval -> string)
    (bot_agent : BotAgent.t) (st : ModelSettings.t) :
  (forall line rest log out,
     all_space line = true ->
     cli_loop EM_DASH repr_dict bot_agent st (line :: rest) log out
     = cli_loop EM_DASH repr_dict bot_agent st rest log (out ++ [PROMPT_YOU])%list)
  /\ (forall stdin log out1 out2,
        run_result (cli_loop EM_DASH repr_dict bot_agent st stdin log out1)
        = run_result
            (cli_loop EM_DASH repr_dict bot_agent st (nonblank_lines stdin) log out2)).
Proof.
  split.
  - intros line rest log out H. cbn [cli_loop]. cbv zeta.
    now rewrite (strip_all_space _ H).
  - intros stdin. induction stdin as [|line rest IH]; intros log out1 out2.
    + reflexivity.
    + unfold nonblank_lines. cbn [filter]. fold (nonblank_lines rest).
      destruct (nonempty (strip line)) eqn:Hne.
      * cbn [cli_loop]. cbv zeta. rewrite Hne. cbn [negb].
        destruct (is_exit (strip line)); [reflexivity|].
        destruct (BotAgent.handle bot_agent (strip line) log) as [[e|response] log'];
          [reflexivity|].
        destruct (handled response); [apply IH|].
        destruct (handoff response); [|apply IH].
        match goal with
        | |- context [bind ?a ?b log'] =>
            destruct (bind a b log') as [[e|human_reply] log'']
        end; [reflexivity | apply IH].
      * cbn [cli_loop]. cbv zeta. rewrite Hne. cbn [negb]. apply IH.
Qed.
